(** * aggregate_stock_data.py: daily price calendar joined with news headlines

    A shallow embedding of [aggregate_for_symbol] and [aggregate_for_aapl]
    (src/aggregate_stock_data.py) and the properties of the written
    document.

    The script is a chain of pandas calls.  What pandas computes on tables
    (sorting, the daily range, reindexing, forward fill, dropping missing
    rows, grouping) is written out here on lists; what pandas, the csv
    reader and the json writer do with text (reading a file into a frame,
    parsing a date string, printing the document) is a parameter of the
    development, instantiated in the examples.  The parses read some texts
    against the clock and the parse of the headline dates can raise: both
    are part of the parameters. *)

From Stdlib Require Import ZArith List String Ascii Bool Lia Sorted Permutation.
From Stdlib Require Import PrimFloat FloatOps SpecFloat.
From stdpp Require Import base option list gmap strings.

Local Open Scope string_scope.
Local Open Scope Z_scope.

(** ** Exceptions *)

Inductive Exception :=
  | FileNotFoundError
  | ParserError
  | KeyError
  | ValueError
  | OverflowError
  | NonExistentTimeError
  | AmbiguousTimeError.

#[global] Instance Exception_eq_dec : EqDecision Exception.
Proof. solve_decision. Defined.

Inductive result (A : Type) :=
  | Ok (a : A)
  | Raise (e : Exception).
Arguments Ok {A} a.
Arguments Raise {A} e.

#[global] Instance result_eq_dec {A} `{EqDecision A} : EqDecision (result A).
Proof. solve_decision. Defined.

#[global] Instance result_ret : MRet result := λ A a, Ok a.

#[global] Instance result_bind : MBind result := λ A B k r,
  match r with
  | Ok a => k a
  | Raise e => Raise e
  end.

(** [None] raises [e]. *)
Definition or_raise {A} (e : Exception) (o : option A) : result A :=
  match o with
  | Some a => Ok a
  | None => Raise e
  end.

(** The loop body run over a list, in order; the first exception ends it. *)
Fixpoint for_each {A B} (f : A → result B) (l : list A) : result (list B) :=
  match l with
  | [] => Ok []
  | x :: t => y ← f x; ys ← for_each f t; Ok (y :: ys)
  end.

(** ** Calendar arithmetic

    A calendar day is its number of days since 1970-01-01 (what
    [Timestamp.date()] holds); a moment is its number of nanoseconds since
    the epoch in UTC (the [datetime64[ns, UTC]] column). *)

Module Calendar.

Definition ns_per_second : Z := 1000000000.
Definition ns_per_day : Z := 86400 * ns_per_second.

(** Day number of the civil date [y]-[m]-[d], proleptic Gregorian. *)
Definition days_from_civil (y m d : Z) : Z :=
  let y' := if m <=? 2 then y - 1 else y in
  let era := y' / 400 in
  let yoe := y' - era * 400 in
  let mp := if 2 <? m then m - 3 else m + 9 in
  let doy := (153 * mp + 2) / 5 + d - 1 in
  let doe := yoe * 365 + yoe / 4 - yoe / 100 + doy in
  era * 146097 + doe - 719468.

(** Civil date (year, month, day) of a day number. *)
Definition civil_from_days (z : Z) : Z * Z * Z :=
  let z' := z + 719468 in
  let era := z' / 146097 in
  let doe := z' - era * 146097 in
  let yoe := (doe - doe / 1460 + doe / 36524 - doe / 146096) / 365 in
  let doy := doe - (365 * yoe + yoe / 4 - yoe / 100) in
  let mp := (5 * doy + 2) / 153 in
  let d := doy - (153 * mp + 2) / 5 + 1 in
  let m := if mp <? 10 then mp + 3 else mp - 9 in
  let y := yoe + era * 400 in
  (if m <=? 2 then y + 1 else y, m, d).

Definition is_leap (y : Z) : bool :=
  ((y mod 4 =? 0) && negb (y mod 100 =? 0)) || (y mod 400 =? 0).

Definition days_in_month (y m : Z) : Z :=
  if m =? 2 then (if is_leap y then 29 else 28)
  else if (m =? 4) || (m =? 6) || (m =? 9) || (m =? 11) then 30
  else 31.

(** The first and the last day a nanosecond [Timestamp] can hold:
    1677-09-22 and 2262-04-11 ([Timestamp.min], [Timestamp.max]). *)
Definition min_day : Z := -106751.
Definition max_day : Z := 106751.

(** *** Fixed-width decimal fields *)

Definition digit (n : Z) : ascii := ascii_of_N (Z.to_N (48 + n mod 10)).

(** The last [w] decimal digits of [n], zero padded. *)
Fixpoint zfill (w : nat) (n : Z) : string :=
  match w with
  | O => EmptyString
  | S w' => zfill w' (n / 10) ++ String (digit n) EmptyString
  end.

(** [strftime('%Y-%m-%d')] of a day. *)
Definition strftime_ymd (day : Z) : string :=
  let '(y, m, d) := civil_from_days day in
  zfill 4 y ++ "-" ++ zfill 2 m ++ "-" ++ zfill 2 d.

(** [.dt.date] of a UTC moment. *)
Definition date_of (t : Z) : Z := t / ns_per_day.

(** [.dt.strftime('%H:%M:%S')] of a UTC moment; fractions of a second are
    not printed. *)
Definition strftime_hms (t : Z) : string :=
  let s := (t mod ns_per_day) / ns_per_second in
  zfill 2 (s / 3600) ++ ":" ++ zfill 2 (s / 60 mod 60) ++ ":" ++ zfill 2 (s mod 60).

(** *** Reading fixed-width fields *)

Definition digit_value (c : ascii) : option Z :=
  let n := Z.of_N (N_of_ascii c) in
  if (48 <=? n) && (n <=? 57) then Some (n - 48) else None.

(** Reads exactly [w] digits. *)
Fixpoint read_digits (w : nat) (acc : Z) (s : string) : option (Z * string) :=
  match w with
  | O => Some (acc, s)
  | S w' =>
      match s with
      | String c s' =>
          match digit_value c with
          | Some v => read_digits w' (10 * acc + v) s'
          | None => None
          end
      | EmptyString => None
      end
  end.

Definition read_char (c : ascii) (s : string) : option string :=
  match s with
  | String c' s' => if Ascii.eqb c c' then Some s' else None
  | EmptyString => None
  end.

(** Reads [YYYY-MM-DD]: the day number and the rest of the text. *)
Definition read_ymd (s : string) : option (Z * string) :=
  '(y, s) ← read_digits 4 0 s;
  s ← read_char "-" s;
  '(m, s) ← read_digits 2 0 s;
  s ← read_char "-" s;
  '(d, s) ← read_digits 2 0 s;
  if (1 <=? m) && (m <=? 12) && (1 <=? d) && (d <=? days_in_month y m)
  then Some (days_from_civil y m d, s) else None.

(** Reads [HH:MM:SS]: the second of the day and the rest of the text. *)
Definition read_hms (s : string) : option (Z * string) :=
  '(h, s) ← read_digits 2 0 s;
  s ← read_char ":" s;
  '(mi, s) ← read_digits 2 0 s;
  s ← read_char ":" s;
  '(sec, s) ← read_digits 2 0 s;
  if (h <=? 23) && (mi <=? 59) && (sec <=? 59)
  then Some (h * 3600 + mi * 60 + sec, s) else None.

(** The zero-padded texts of the format ['%Y-%m-%d'], within the days a
    [Timestamp] can hold. *)
Definition strptime_ymd (s : string) : option Z :=
  match read_ymd s with
  | Some (day, EmptyString) =>
      if (min_day <=? day) && (day <=? max_day) then Some day else None
  | _ => None
  end.

(** The fields of a zero-padded text [YYYY-MM-DD HH:MM:SS <zone>]: the
    wall-clock moment and the name of the zone. *)
Definition read_ymd_hms_tz (s : string) : option (Z * string) :=
  '(day, s) ← read_ymd s;
  s ← read_char " " s;
  '(sec, s) ← read_hms s;
  tz ← read_char " " s;
  Some (day * ns_per_day + sec * ns_per_second, tz).

(** The zero-padded texts of the format ['%Y-%m-%d %H:%M:%S %Z'] read with
    [utc=True]: the wall-clock time is taken in the named zone and moved to
    UTC.  [utcoffset name local] is the zone database: the offset from UTC,
    in nanoseconds, that zone [name] has at the wall-clock moment [local],
    [Ok None] for a name it does not know (the cell is [NaT]).  A wall-clock
    moment that the zone skips or has twice makes the localisation raise
    ([pytz.NonExistentTimeError], [pytz.AmbiguousTimeError]), whatever
    [errors] says. *)
Definition strptime_ymd_hms_tz (utcoffset : string → Z → result (option Z))
    (s : string) : result (option Z) :=
  match read_ymd_hms_tz s with
  | Some (local, tz) =>
      off ← utcoffset tz local;
      Ok (match off with
          | Some off => Some (local - off)
          | None => None
          end)
  | None => Ok None
  end.

End Calendar.

(** ** Tables and the written document *)

(** A cell of the [volume] column.  [read_csv] types a column of whole
    numbers with no missing cell [int64], and the script converts its cells
    with [int]: they are kept exactly.  Any other numeric column is
    [float64], a missing cell being [nan]. *)
Inductive Volume :=
  | Int64 (z : Z)
  | Float64 (x : float).

(** The four numeric columns of a price row.  The script converts [high],
    [low] and [close] with [float]: such a cell is the binary64 number of
    what the table holds ([float] of an integer and the conversion of an
    integer column to [float64] round alike), [nan] when it is missing. *)
Record Cells := {
  high : float;
  low : float;
  close : float;
  volume : Volume
}.

(** A row of the price table as read: the text of its [date] cell and its
    numeric cells. *)
Record PriceRow := {
  date : string;
  cells : Cells
}.

(** A row of the headline table as read. *)
Record NewsRow := {
  Date : string;
  Article_title : string
}.

(** A headline row after [Date] was parsed, moved to UTC and split. *)
Record NewsLine := {
  date_only : Z;
  time_str : string;
  title : string
}.

Module Doc.

(** [{"high": .., "low": .., "close": .., "volume": ..}] *)
Record MarketData := {
  high : float;
  low : float;
  close : float;
  volume : Z
}.

(** [{"time": .., "headline": ..}] *)
Record Headline := {
  time : string;
  headline : string
}.

(** One entry of ["history"]. *)
Record DayRecord := {
  date : string;
  market_data : MarketData;
  news_headlines : list Headline
}.

(** The object given to [json.dump]: [{"history": history}]. *)
Record Document := {
  history : list DayRecord
}.

End Doc.

(** ** Pandas operations on columns and rows *)

Definition isna (x : float) : bool := PrimFloat.is_nan x.

(** [isna] on a cell of the [volume] column: an integer is never missing. *)
Definition isna_volume (v : Volume) : bool :=
  match v with
  | Int64 _ => false
  | Float64 x => isna x
  end.

(** [astype('float64')] of an integer: the nearest binary64 number, ties to
    even. *)
Definition float_of_int (z : Z) : float :=
  SF2Prim (binary_normalize prec emax z 0 false).

Definition astype_float64 (v : Volume) : Volume :=
  match v with
  | Int64 z => Float64 (float_of_int z)
  | Float64 x => Float64 x
  end.

Definition nan_cells : Cells :=
  {| high := nan; low := nan; close := nan; volume := Float64 nan |}.

Definition insert_sorted {A} (le : A → A → bool) (x : A) : list A → list A :=
  fix go l :=
    match l with
    | [] => [x]
    | y :: t => if le x y then x :: y :: t else y :: go t
    end.

(** [sort_values]: ascending, rows with equal keys kept in their order. *)
Definition sort_values {A} (le : A → A → bool) (l : list A) : list A :=
  foldr (insert_sorted le) [] l.

(** Order of a datetime column, [NaT] last. *)
Definition nat_last_le (a b : option Z) : bool :=
  match a, b with
  | Some x, Some y => x <=? y
  | Some _, None => true
  | None, Some _ => false
  | None, None => true
  end.

(** [Series.min()] and [Series.max()] of a datetime column: [NaT] entries
    are skipped, and the result is [NaT] when nothing is left. *)
Definition series_min (l : list (option Z)) : option Z :=
  match omap id l with
  | [] => None
  | x :: t => Some (foldr Z.min x t)
  end.

Definition series_max (l : list (option Z)) : option Z :=
  match omap id l with
  | [] => None
  | x :: t => Some (foldr Z.max x t)
  end.

(** [pd.date_range(start, end, freq='D')]: every day from [start] to [end],
    both included; [NaT] as a bound raises. *)
Definition date_range (start end_ : option Z) : result (list Z) :=
  match start, end_ with
  | Some a, Some b => Ok (seqZ a (b - a + 1))
  | _, _ => Raise ValueError
  end.

(** The row labelled [d] of a frame indexed by date, all cells missing when
    no row has that label. *)
Definition loc (frame : list (option Z * Cells)) (d : Z) : Cells :=
  match find (λ r, bool_decide (r.1 = Some d)) frame with
  | Some r => r.2
  | None => nan_cells
  end.

(** The type of the [volume] column after [.reindex(target)]: a label of
    [target] with no row gives a row of missing cells, and a column that
    gets a missing cell is [float64] from then on; when every label has its
    row the column keeps its type. *)
Definition retype (frame : list (option Z * Cells)) (target : list Z)
    (c : Cells) : Cells :=
  if forallb (λ d, bool_decide (Some d ∈ frame.*1)) target
  then c
  else {| high := high c; low := low c; close := close c;
          volume := astype_float64 (volume c) |}.

(** [.reindex(target)] of a frame indexed by date: the rows labelled by
    the days of [target], in that order.  An index in which a label occurs
    twice cannot be reindexed ([ValueError]: cannot reindex on an axis with
    duplicate labels), and [NaT] is a label like another. *)
Definition reindex (frame : list (option Z * Cells)) (target : list Z)
    : result (list (Z * Cells)) :=
  if bool_decide (NoDup frame.*1)
  then Ok (map (λ d, (d, retype frame target (loc frame d))) target)
  else Raise ValueError.

Definition fill (prev cur : float) : float := if isna cur then prev else cur.

Definition fill_volume (prev cur : Volume) : Volume :=
  if isna_volume cur then prev else cur.

Definition ffill_row (prev cur : Cells) : Cells :=
  {| high := fill (high prev) (high cur);
     low := fill (low prev) (low cur);
     close := fill (close prev) (close cur);
     volume := fill_volume (volume prev) (volume cur) |}.

Fixpoint ffill_from (prev : Cells) (rows : list (Z * Cells)) : list (Z * Cells) :=
  match rows with
  | [] => []
  | (d, c) :: t => let c' := ffill_row prev c in (d, c') :: ffill_from c' t
  end.

(** [.ffill()]: a missing cell takes the last value above it in its column. *)
Definition ffill (rows : list (Z * Cells)) : list (Z * Cells) :=
  ffill_from nan_cells rows.

(** [int(x)] of a float: cut toward zero; [nan] and the infinities raise. *)
Definition int_of_float (x : float) : result Z :=
  match Prim2SF x with
  | S754_zero _ => Ok 0
  | S754_finite s m e =>
      let a := if 0 <=? e then Z.pos m * 2 ^ e else Z.pos m / 2 ^ (- e) in
      Ok (if s then - a else a)
  | S754_infinity _ => Raise OverflowError
  | S754_nan => Raise ValueError
  end.

(** [int(row['volume'])]: the rows of [iterrows] hold the cells of an
    [int64] column as integers. *)
Definition int (v : Volume) : result Z :=
  match v with
  | Int64 z => Ok z
  | Float64 x => int_of_float x
  end.

(** [column.loc[mask]]: the entries where the mask holds. *)
Fixpoint select {A} (mask : list bool) (l : list A) : list A :=
  match mask, l with
  | b :: m, x :: t => if b then x :: select m t else select m t
  | _, _ => []
  end.

(** [parsed.loc[mask] = values]: the entries of [parsed] where the mask
    holds take the entries of [values], in order (a value that is not
    there is missing). *)
Fixpoint assign_masked (mask : list bool) (parsed values : list (option Z))
    : list (option Z) :=
  match mask, parsed with
  | true :: m, _ :: ps =>
      match values with
      | v :: vs => v :: assign_masked m ps vs
      | [] => None :: assign_masked m ps []
      end
  | false :: m, p :: ps => p :: assign_masked m ps values
  | _, _ => []
  end.

(** Order of [sort_values(['date_only', 'time_str'])]. *)
Definition news_le (a b : NewsLine) : bool :=
  (date_only a <? date_only b)
  || ((date_only a =? date_only b) && String.leb (time_str a) (time_str b)).

(** [str.upper()] on the ASCII letters. *)
Definition upper_ascii (c : ascii) : ascii :=
  let n := N_of_ascii c in
  if ((97 <=? n) && (n <=? 122))%N then ascii_of_N (n - 32) else c.

Fixpoint upper (s : string) : string :=
  match s with
  | EmptyString => EmptyString
  | String c s' => String (upper_ascii c) (upper s')
  end.

(** [x or default] on an optional path: [None] and the empty text are
    false. *)
Definition or_else (x : option string) (default : string) : string :=
  match x with
  | Some s => if String.eqb s "" then default else s
  | None => default
  end.

(** ** The aggregator on the two tables *)

Section Tables.

(** The three parses, as they read a text at the moment of the call: pandas
    reads the texts [now] and [today], and a time of day with no date,
    against the clock, so that the same text may be read otherwise by
    another call (the clock is a parameter of [aggregate_for_symbol]
    below). *)

(** [pd.to_datetime(.., format='%Y-%m-%d', errors='coerce')] on one cell:
    the day, or [None] for [NaT]. *)
Variable to_datetime_ymd : string → option Z.

(** [pd.to_datetime(.., format='%Y-%m-%d %H:%M:%S %Z', errors='coerce',
    utc=True)] on one cell: the UTC moment in nanoseconds, or [None] for
    [NaT]; a cell whose wall-clock time its zone skips or has twice
    raises, [errors='coerce'] notwithstanding. *)
Variable to_datetime_tz : string → result (option Z).

(** [pd.to_datetime(.., utc=True, errors='coerce')] with no format, on a
    whole column. *)
Variable to_datetime_any : list string → result (list (option Z)).

(** Lines 29-40: the price table on its full daily calendar. *)
Definition price_daily (price_df : list PriceRow) : result (list (Z * Cells)) :=
  let price_df := map (λ r, (to_datetime_ymd (date r), cells r)) price_df in
  let price_df := sort_values (λ a b, nat_last_le a.1 b.1) price_df in
  full_range ← date_range (series_min price_df.*1) (series_max price_df.*1);
  reindexed ← reindex price_df full_range;
  Ok (ffill reindexed).

(** Lines 43-47 on the column [news_df['Date']]: the column parsed, the
    fallback tried on the cells the format refused.  The column is parsed
    cell by cell; an exception of a cell ends the call. *)
Definition parsed (dates : list string) : result (list (option Z)) :=
  parsed ← for_each to_datetime_tz dates;
  let fallback_mask := map (λ p, bool_decide (p = None)) parsed in
  if existsb id fallback_mask
  then values ← to_datetime_any (select fallback_mask dates);
       Ok (assign_masked fallback_mask parsed values)
  else Ok parsed.

Definition news_line (r : NewsRow) (t : Z) : NewsLine :=
  {| date_only := Calendar.date_of t;
     time_str := Calendar.strftime_hms t;
     title := Article_title r |}.

(** Lines 48-54: [dropna] on the parsed column, then the split into date
    and time of day. *)
Definition dropna (news_df : list NewsRow) (parsed : list (option Z))
    : list NewsLine :=
  omap (λ rp, news_line rp.1 <$> rp.2) (zip news_df parsed).

(** Line 56. *)
Definition news_sorted (news_df : list NewsRow) (parsed : list (option Z))
    : list NewsLine :=
  sort_values news_le (dropna news_df parsed).

Definition headline_of (g : NewsLine) : Doc.Headline :=
  {| Doc.time := time_str g; Doc.headline := title g |}.

(** Lines 58-62: the groups of [groupby('date_only')] as a dictionary from
    the date to the list built from its rows, in their order.  (With no
    row left the dictionary pandas returns has no date as a key either.) *)
Definition groupby_date_only (lines : list NewsLine) : gmap Z (list Doc.Headline) :=
  foldr (λ g m, <[date_only g := headline_of g :: default [] (m !! date_only g)]> m)
        ∅ lines.

Definition news_by_date (news_df : list NewsRow) (parsed : list (option Z))
    : gmap Z (list Doc.Headline) :=
  groupby_date_only (news_sorted news_df parsed).

(** Lines 67-83: the record of one row of [price_daily]. *)
Definition day_record (news_by_date : gmap Z (list Doc.Headline))
    (row : Z * Cells) : result Doc.DayRecord :=
  let date_obj := row.1 in
  let date_str := Calendar.strftime_ymd date_obj in
  let date_key := date_obj in
  v ← int (volume row.2);
  Ok {| Doc.date := date_str;
        Doc.market_data :=
          {| Doc.high := high row.2;
             Doc.low := low row.2;
             Doc.close := close row.2;
             Doc.volume := v |};
        Doc.news_headlines := default [] (news_by_date !! date_key) |}.

(** Lines 48-83 once the daily prices and the parsed column are there. *)
Definition combine (price_daily : list (Z * Cells)) (news_df : list NewsRow)
    (parsed : list (option Z)) : result Doc.Document :=
  history ← for_each (day_record (news_by_date news_df parsed)) price_daily;
  Ok {| Doc.history := history |}.

(** Lines 28-83 on the two tables. *)
Definition aggregate (price_df : list PriceRow) (news_df : list NewsRow)
    : result Doc.Document :=
  price_daily ← price_daily price_df;
  parsed ← parsed (map Date news_df);
  combine price_daily news_df parsed.

End Tables.

(** ** The aggregator on the files *)

Section Aggregator.

(** What a file holds, and a table as [pd.read_csv] returns it. *)
Variable Content : Type.
Variable Frame : Type.

(** [pd.read_csv] on the content of a file; [None] when it raises. *)
Variable read_csv : Content → option Frame.

(** The columns [date], [high], [low], [close], [volume] of a frame, row by
    row; [None] when one of them is absent (lines 29 and 30). *)
Variable price_columns : Frame → option (list PriceRow).

(** The column [Date] of a frame (line 43) and its column [Article_title]
    (line 56); [None] when the column is absent.  The columns of a frame
    have the same length. *)
Variable news_Date : Frame → option (list string).
Variable news_Article_title : Frame → option (list string).

(** The three parses of [pd.to_datetime] at a reading of the clock. *)
Variable to_datetime_ymd : Z → string → option Z.
Variable to_datetime_tz : Z → string → result (option Z).
Variable to_datetime_any : Z → list string → result (list (option Z)).

(** [json.dump(.., indent=2)]: the text written for a document. *)
Variable json_dump : Doc.Document → Content.

(** The clock when the call runs. *)
Variable now : Z.

(** A step of the script on the files: its result and the files after it. *)
Definition io (A : Type) : Type :=
  gmap string Content → result A * gmap string Content.

#[global] Instance io_ret : MRet io := λ A a fs, (Ok a, fs).

#[global] Instance io_bind : MBind io := λ A B k m fs,
  match m fs with
  | (Ok a, fs') => k a fs'
  | (Raise e, fs') => (Raise e, fs')
  end.

(** A step that touches no file. *)
Definition pure {A} (r : result A) : io A := λ fs, (r, fs).

Definition read_file (path : string) : io Content :=
  λ fs, (or_raise FileNotFoundError (fs !! path), fs).

(** [open(path, 'w')] and the write: the file holds the new text, whatever
    it held before.  (Directories are not modelled: [os.makedirs] and the
    opening of the file succeed.) *)
Definition write_file (path : string) (text : Content) : io unit :=
  λ fs, (Ok (), <[path := text]> fs).

(** [pd.read_csv(path)]. *)
Definition pd_read_csv (path : string) : io Frame :=
  c ← read_file path;
  pure (or_raise ParserError (read_csv c)).

(** The rows of the headline frame, from its two columns. *)
Definition news_rows (dates titles : list string) : list NewsRow :=
  zip_with Build_NewsRow dates titles.

(** [aggregate_for_symbol], lines 19-91. *)
Definition aggregate_for_symbol (symbol : string)
    (price_csv news_csv out_json : option string) : io unit :=
  let symbol_up := upper symbol in
  let price_csv :=
    or_else price_csv ("stock_price_history/" ++ symbol_up ++ "_price.csv") in
  let news_csv :=
    or_else news_csv ("news_headlines/" ++ symbol_up ++ "_headlines.csv") in
  let out_json :=
    or_else out_json ("aggregated_data/" ++ symbol_up ++ "_aggregated.json") in
  price_df ← pd_read_csv price_csv;
  news_df ← pd_read_csv news_csv;
  price_df ← pure (or_raise KeyError (price_columns price_df));
  price_daily ← pure (price_daily (to_datetime_ymd now) price_df);
  dates ← pure (or_raise KeyError (news_Date news_df));
  parsed ← pure (parsed (to_datetime_tz now) (to_datetime_any now) dates);
  titles ← pure (or_raise KeyError (news_Article_title news_df));
  doc ← pure (combine price_daily (news_rows dates titles) parsed);
  write_file out_json (json_dump doc).

(** [aggregate_for_aapl], lines 94-96. *)
Definition aggregate_for_aapl (price_csv news_csv out_json : option string)
    : io unit :=
  aggregate_for_symbol "AAPL" price_csv news_csv out_json.

End Aggregator.

(** ** A concrete instance

    Files hold a table or a written document; the date formats are read in
    their zero-padded form; the parse with no format reads
    [YYYY-MM-DDTHH:MM:SS] as a UTC moment and [now] as the clock, cell by
    cell. *)

Module Sample.

(** A frame: the five price columns, the two headline columns, or a
    [Date] column alone. *)
Inductive Table :=
  | PriceTable (rows : list PriceRow)
  | NewsTable (rows : list NewsRow)
  | DateColumn (dates : list string).

Inductive File :=
  | CsvFile (t : Table)
  | JsonFile (doc : Doc.Document).

Definition read_csv (c : File) : option Table :=
  match c with
  | CsvFile t => Some t
  | JsonFile _ => None
  end.

Definition price_columns (t : Table) : option (list PriceRow) :=
  match t with
  | PriceTable rows => Some rows
  | _ => None
  end.

Definition news_Date (t : Table) : option (list string) :=
  match t with
  | NewsTable rows => Some (map Date rows)
  | DateColumn dates => Some dates
  | PriceTable _ => None
  end.

Definition news_Article_title (t : Table) : option (list string) :=
  match t with
  | NewsTable rows => Some (map Article_title rows)
  | _ => None
  end.

(** A moment given by its day and its second of the day. *)
Definition moment (day sec : Z) : Z :=
  day * Calendar.ns_per_day + sec * Calendar.ns_per_second.

(** A zone database that knows the fixed zones [UTC] and [EST], and the
    zone [US/Eastern] for the wall-clock moments of the year 2023: summer
    time from 2023-03-12 02:00, the hour after it skipped, to 2023-11-05
    02:00, the hour before it had twice. *)
Definition utcoffset (name : string) (local : Z) : result (option Z) :=
  let hour := 3600 * Calendar.ns_per_second in
  if String.eqb name "UTC" then Ok (Some 0)
  else if String.eqb name "EST" then Ok (Some (-5 * hour))
  else if String.eqb name "US/Eastern" then
    let spring := moment (Calendar.days_from_civil 2023 3 12) (2 * 3600) in
    let autumn := moment (Calendar.days_from_civil 2023 11 5) (1 * 3600) in
    if (local <? moment (Calendar.days_from_civil 2023 1 1) 0)
       || (moment (Calendar.days_from_civil 2024 1 1) 0 <=? local)
    then Ok None
    else if local <? spring then Ok (Some (-5 * hour))
    else if local <? spring + hour then Raise NonExistentTimeError
    else if local <? autumn then Ok (Some (-4 * hour))
    else if local <? autumn + hour then Raise AmbiguousTimeError
    else Ok (Some (-5 * hour))
  else Ok None.

Definition to_datetime_tz : string → result (option Z) :=
  Calendar.strptime_ymd_hms_tz utcoffset.

Definition iso_T (s : string) : option Z :=
  '(day, s) ← Calendar.read_ymd s;
  s ← Calendar.read_char "T" s;
  '(sec, s) ← Calendar.read_hms s;
  match s with
  | EmptyString => Some (day * Calendar.ns_per_day + sec * Calendar.ns_per_second)
  | _ => None
  end.

(** The parse with no format when the clock reads [now]. *)
Definition to_datetime_any_at (now : Z) (col : list string)
    : result (list (option Z)) :=
  Ok (map (λ s, if String.eqb s "now" then Some now else iso_T s) col).

(** The clock of the examples: 2023-01-02 10:00:00 UTC. *)
Definition clock : Z := moment 19359 36000.

Definition to_datetime_any : list string → result (list (option Z)) :=
  to_datetime_any_at clock.

Definition aggregate : list PriceRow → list NewsRow → result Doc.Document :=
  aggregate Calendar.strptime_ymd to_datetime_tz to_datetime_any.

Definition aggregate_for_symbol_at (now : Z) :=
  aggregate_for_symbol File Table read_csv price_columns
    news_Date news_Article_title
    (λ _, Calendar.strptime_ymd) (λ _, to_datetime_tz) to_datetime_any_at
    JsonFile now.

Definition aggregate_for_symbol := aggregate_for_symbol_at clock.

Definition price (d : string) (h l c : float) (v : Volume) : PriceRow :=
  {| date := d; cells := {| high := h; low := l; close := c; volume := v |} |}.

Definition prices_jan : list PriceRow :=
  [ price "2023-01-03" 12 11 11.5 (Int64 200);
    price "2023-01-01" 10 9 9.5 (Int64 100) ].

Definition row_est : NewsRow :=
  {| Date := "2023-01-02 23:30:00 EST"; Article_title := "late" |}.
Definition row_iso : NewsRow :=
  {| Date := "2023-01-03T01:00:00"; Article_title := "early" |}.
Definition row_lost : NewsRow :=
  {| Date := "yesterday"; Article_title := "lost" |}.
Definition row_feb : NewsRow :=
  {| Date := "2023-02-01 12:00:00 UTC"; Article_title := "outside" |}.

Definition news_jan : list NewsRow :=
  [ row_est; row_iso; row_lost; row_feb ].

(** The parsed column of [news_jan]: the second row is read by the parse
    with no format, the third by neither. *)
Definition column_jan : list (option Z) :=
  [ Some (moment 19360 16200); Some (moment 19360 3600); None;
    Some (moment 19389 43200) ].

Definition day (d : string) (h l c : float) (v : Z)
    (news : list Doc.Headline) : Doc.DayRecord :=
  {| Doc.date := d;
     Doc.market_data :=
       {| Doc.high := h; Doc.low := l; Doc.close := c; Doc.volume := v |};
     Doc.news_headlines := news |}.

(** The document of [prices_jan] and [news_jan]: 2023-01-02 is filled from
    2023-01-01, the EST headline stands under its UTC date, the headline
    nobody reads and the one of February are not there. *)
Definition doc_jan : Doc.Document :=
  {| Doc.history :=
       [ day "2023-01-01" 10 9 9.5 100 [];
         day "2023-01-02" 10 9 9.5 100 [];
         day "2023-01-03" 12 11 11.5 200
           [ {| Doc.time := "01:00:00"; Doc.headline := "early" |};
             {| Doc.time := "04:30:00"; Doc.headline := "late" |} ] ] |}.

(** One price day, and a headline of another month in each of the two
    formats. *)
Definition prices_one : list PriceRow :=
  [ price "2023-01-01" 10 9 9.5 (Int64 100) ].

Definition news_feb : list NewsRow := [ row_feb ].

Definition news_feb_iso : list NewsRow :=
  [ {| Date := "2023-02-01T12:00:00"; Article_title := "outside" |} ].

Definition doc_one : Doc.Document :=
  {| Doc.history := [ day "2023-01-01" 10 9 9.5 100 [] ] |}.

(** Price tables with no date that parses, with two dates that do not
    parse, and with the same date twice. *)
Definition prices_none : list PriceRow :=
  [ price "01/01/2023" 10 9 9.5 (Int64 100);
    price "" 12 11 11.5 (Int64 200) ].

Definition prices_two_bad : list PriceRow :=
  [ price "2023-01-01" 10 9 9.5 (Int64 100);
    price "01/02/2023" 11 10 10.5 (Int64 150);
    price "n/a" 12 11 11.5 (Int64 200) ].

Definition prices_one_bad : list PriceRow :=
  [ price "2023-01-01" 10 9 9.5 (Int64 100);
    price "01/02/2023" 11 10 10.5 (Int64 150) ].

Definition prices_twice : list PriceRow :=
  [ price "2023-01-01" 10 9 9.5 (Int64 100);
    price "2023-01-02" 11 10 10.5 (Int64 150);
    price "2023-01-01" 12 11 11.5 (Int64 200) ].

(** File systems: a price table and a headline table at the default paths
    of [AAPL]. *)
Definition files_of (prices : list PriceRow) (news : list NewsRow)
    : gmap string File :=
  {[ "stock_price_history/AAPL_price.csv" := CsvFile (PriceTable prices);
     "news_headlines/AAPL_headlines.csv" := CsvFile (NewsTable news) ]}.

Definition files (prices : list PriceRow) : gmap string File :=
  files_of prices news_jan.

(** A price table whose first day has no volume, and one whose second day
    has neither high nor volume. *)
Definition prices_no_volume : list PriceRow :=
  [ price "2023-01-01" 10 9 9.5 (Float64 nan);
    price "2023-01-02" 11 10 10.5 (Float64 150) ].

Definition prices_cells_missing : list PriceRow :=
  [ price "2023-01-01" 10 9 9.5 (Float64 100);
    price "2023-01-02" nan 10 10.5 (Float64 nan) ].

Definition doc_cells_missing : Doc.Document :=
  {| Doc.history :=
       [ day "2023-01-01" 10 9 9.5 100 [];
         day "2023-01-02" 10 10 10.5 100 [] ] |}.

(** A price table whose first day has no high. *)
Definition prices_no_high : list PriceRow :=
  [ price "2023-01-01" nan 9 9.5 (Int64 100);
    price "2023-01-02" 11 10 10.5 (Int64 150) ].

Definition doc_no_high : Doc.Document :=
  {| Doc.history :=
       [ day "2023-01-01" nan 9 9.5 100 [];
         day "2023-01-02" 11 10 10.5 150 [] ] |}.

(** Two price tables with a volume beyond 2^53: one with a row for each of
    its two days, one with a day in between that has no row. *)
Definition prices_big : list PriceRow :=
  [ price "2023-01-01" 10 9 9.5 (Int64 9007199254740993);
    price "2023-01-02" 11 10 10.5 (Int64 150) ].

Definition doc_big : Doc.Document :=
  {| Doc.history :=
       [ day "2023-01-01" 10 9 9.5 9007199254740993 [];
         day "2023-01-02" 11 10 10.5 150 [] ] |}.

Definition prices_big_gap : list PriceRow :=
  [ price "2023-01-01" 10 9 9.5 (Int64 9007199254740993);
    price "2023-01-03" 11 10 10.5 (Int64 150) ].

Definition doc_big_gap : Doc.Document :=
  {| Doc.history :=
       [ day "2023-01-01" 10 9 9.5 9007199254740992 [];
         day "2023-01-02" 10 9 9.5 9007199254740992 [];
         day "2023-01-03" 11 10 10.5 150 [] ] |}.

(** The tables of January with the price rows and the headline rows in
    another order, and the document without its headlines. *)
Definition prices_jan_sorted : list PriceRow :=
  [ price "2023-01-01" 10 9 9.5 (Int64 100);
    price "2023-01-03" 12 11 11.5 (Int64 200) ].

Definition doc_jan_bare : Doc.Document :=
  {| Doc.history :=
       [ day "2023-01-01" 10 9 9.5 100 [];
         day "2023-01-02" 10 9 9.5 100 [];
         day "2023-01-03" 12 11 11.5 200 [] ] |}.

(** File systems with the price file alone, with each table in the place
    of the other, and with a price table in the place of the headlines. *)
Definition price_file_only : gmap string File :=
  {[ "stock_price_history/AAPL_price.csv" := CsvFile (PriceTable prices_jan) ]}.

Definition tables_swapped : gmap string File :=
  {[ "stock_price_history/AAPL_price.csv" := CsvFile (NewsTable news_jan);
     "news_headlines/AAPL_headlines.csv" := CsvFile (PriceTable prices_jan) ]}.

Definition headlines_without_columns (prices : list PriceRow) : gmap string File :=
  {[ "stock_price_history/AAPL_price.csv" := CsvFile (PriceTable prices);
     "news_headlines/AAPL_headlines.csv" := CsvFile (PriceTable prices) ]}.

(** A headline row at a wall-clock time that [US/Eastern] skips, and a
    headline row dated [now]. *)
Definition row_skipped : NewsRow :=
  {| Date := "2023-03-12 02:30:00 US/Eastern"; Article_title := "spring" |}.

Definition row_now : NewsRow :=
  {| Date := "now"; Article_title := "breaking" |}.

(** A file system whose headline file has a [Date] column and no
    [Article_title]. *)
Definition headlines_without_titles (prices : list PriceRow)
    (dates : list string) : gmap string File :=
  {[ "stock_price_history/AAPL_price.csv" := CsvFile (PriceTable prices);
     "news_headlines/AAPL_headlines.csv" := CsvFile (DateColumn dates) ]}.

(** The documents of [prices_jan] with the one headline [row_now], when the
    clock reads 10:00:00 and 10:00:01 on 2023-01-02. *)
Definition doc_now (time : string) : Doc.Document :=
  {| Doc.history :=
       [ day "2023-01-01" 10 9 9.5 100 [];
         day "2023-01-02" 10 9 9.5 100
           [ {| Doc.time := time; Doc.headline := "breaking" |} ];
         day "2023-01-03" 12 11 11.5 200 [] ] |}.

End Sample.

(** ** Vocabulary of the statements *)

(** The price table with its [date] column parsed (line 29). *)
Definition indexed (to_datetime_ymd : string → option Z) (price_df : list PriceRow)
    : list (option Z * Cells) :=
  map (λ r, (to_datetime_ymd (date r), cells r)) price_df.

(** The days of the price rows whose date parses. *)
Definition valid_dates (to_datetime_ymd : string → option Z)
    (price_df : list PriceRow) : list Z :=
  omap (λ r, to_datetime_ymd (date r)) price_df.

(** The calendar of a price table whose dates span [D1..Dn], each day with
    the cells of its row, or with missing cells (line 36). *)
Definition on_calendar (to_datetime_ymd : string → option Z)
    (price_df : list PriceRow) (D1 Dn : Z) : list (Z * Cells) :=
  let frame := indexed to_datetime_ymd price_df in
  let target := seqZ D1 (Dn - D1 + 1) in
  map (λ d, (d, retype frame target (loc frame d))) target.

(** Every day from [D1] to [Dn] has a price row: the calendar has no day to
    fill, and the [volume] column keeps its type. *)
Definition gapless (to_datetime_ymd : string → option Z)
    (price_df : list PriceRow) (D1 Dn : Z) : Prop :=
  ∀ d, D1 ≤ d ≤ Dn → d ∈ valid_dates to_datetime_ymd price_df.

(** The three paths of a call (lines 19-22). *)
Definition price_path (symbol : string) (price_csv : option string) : string :=
  or_else price_csv ("stock_price_history/" ++ upper symbol ++ "_price.csv")%string.

Definition news_path (symbol : string) (news_csv : option string) : string :=
  or_else news_csv ("news_headlines/" ++ upper symbol ++ "_headlines.csv")%string.

Definition out_path (symbol : string) (out_json : option string) : string :=
  or_else out_json ("aggregated_data/" ++ upper symbol ++ "_aggregated.json")%string.

(** The price table (the headline table) a call gets from the file at
    [path]: the file is there, [read_csv] reads it, and the columns the
    script uses are in it. *)
Definition price_table_of {Content Frame : Type}
    (read_csv : Content → option Frame)
    (price_columns : Frame → option (list PriceRow))
    (fs : gmap string Content) (path : string) (P : list PriceRow) : Prop :=
  ∃ c pf, fs !! path = Some c ∧ read_csv c = Some pf ∧ price_columns pf = Some P.

Definition news_table_of {Content Frame : Type}
    (read_csv : Content → option Frame)
    (news_Date news_Article_title : Frame → option (list string))
    (fs : gmap string Content) (path : string) (N : list NewsRow) : Prop :=
  ∃ c nf, fs !! path = Some c ∧ read_csv c = Some nf
    ∧ news_Date nf = Some (map Date N)
    ∧ news_Article_title nf = Some (map Article_title N).

(** [d] is the smallest (the largest) element of [l]. *)
Definition is_min (d : Z) (l : list Z) : Prop := d ∈ l ∧ ∀ x, x ∈ l → d ≤ x.
Definition is_max (d : Z) (l : list Z) : Prop := d ∈ l ∧ ∀ x, x ∈ l → x ≤ d.

(** The [Date] cells the format refuses, in their order: the column given
    to the parse with no format (line 46). *)
Definition fallback_cells (to_datetime_tz : string → result (option Z))
    (news_df : list NewsRow) : list string :=
  Date <$> filter (λ r, to_datetime_tz (Date r) = Ok None) news_df.

(** A volume cell that [int] accepts, also once its column is [float64]:
    a number, not [nan] and not an infinity. *)
Definition finite (v : Volume) : Prop := ∃ z, int (astype_float64 v) = Ok z.

(** The three parses read the cells of the two tables alike at the clock
    readings [now] and [now']. *)
Definition read_alike
    (to_datetime_ymd : Z → string → option Z)
    (to_datetime_tz : Z → string → result (option Z))
    (to_datetime_any : Z → list string → result (list (option Z)))
    (now now' : Z) (price_df : list PriceRow) (news_df : list NewsRow) : Prop :=
  Forall (λ r, to_datetime_ymd now (date r) = to_datetime_ymd now' (date r)) price_df
  ∧ Forall (λ r, to_datetime_tz now (Date r) = to_datetime_tz now' (Date r)) news_df
  ∧ to_datetime_any now (fallback_cells (to_datetime_tz now) news_df)
    = to_datetime_any now' (fallback_cells (to_datetime_tz now) news_df).

(** Headlines in ascending order of their time text. *)
Definition time_ascending (l : list Doc.Headline) : Prop :=
  StronglySorted (λ a b, String.leb (Doc.time a) (Doc.time b) = true) l.

(** * Properties *)

Local Open Scope list_scope.

(** ** Lists *)

Lemma lookup_map {A B} (f : A → B) (l : list A) (i : nat) :
  map f l !! i = f <$> l !! i.
Proof. apply list_lookup_fmap. Qed.

(** ** The exception monad *)

Lemma bind_Ok {A B} (r : result A) (k : A → result B) (b : B) :
  r ≫= k = Ok b → ∃ a, r = Ok a ∧ k a = Ok b.
Proof. destruct r as [a|e]; [eauto | discriminate]. Qed.

Lemma for_each_Ok {A B} (f : A → result B) (l : list A) (ys : list B) :
  for_each f l = Ok ys → Forall2 (λ x y, f x = Ok y) l ys.
Proof.
  revert ys. induction l as [|x t IH]; intros ys H; simpl in H.
  - injection H as <-. constructor.
  - apply bind_Ok in H as (y & Hy & H).
    apply bind_Ok in H as (ys' & Hys & H).
    injection H as <-. constructor; auto.
Qed.

Lemma for_each_lookup {A B} (f : A → result B) (l : list A) (ys : list B) i x :
  for_each f l = Ok ys → l !! i = Some x → ∃ y, ys !! i = Some y ∧ f x = Ok y.
Proof.
  intros H Hx. apply for_each_Ok in H.
  destruct (Forall2_lookup_l _ _ _ _ _ H Hx) as (y & ? & ?). eauto.
Qed.

Lemma for_each_lookup_r {A B} (f : A → result B) (l : list A) (ys : list B) i y :
  for_each f l = Ok ys → ys !! i = Some y → ∃ x, l !! i = Some x ∧ f x = Ok y.
Proof.
  intros H Hy. apply for_each_Ok in H.
  destruct (Forall2_lookup_r _ _ _ _ _ H Hy) as (x & ? & ?). eauto.
Qed.

(** ** Sorting *)

Lemma insert_sorted_perm {A} (le : A → A → bool) x l :
  insert_sorted le x l ≡ₚ x :: l.
Proof.
  induction l as [|y t IH]; simpl; [done|].
  destruct (le x y); [done|]. rewrite IH. apply perm_swap.
Qed.

Lemma sort_values_perm {A} (le : A → A → bool) l : sort_values le l ≡ₚ l.
Proof.
  induction l as [|x t IH]; simpl; [done|].
  unfold sort_values in *. simpl. rewrite insert_sorted_perm. by rewrite IH.
Qed.

Section SortedBy.
Context {A : Type} (le : A → A → bool).
Hypothesis le_total : ∀ x y, le x y = false → le y x = true.
Hypothesis le_trans : ∀ x y z, le x y = true → le y z = true → le x z = true.

Lemma insert_sorted_sorted x l :
  StronglySorted (λ a b, le a b = true) l →
  StronglySorted (λ a b, le a b = true) (insert_sorted le x l).
Proof.
  induction 1 as [|y t Hs IH Hy]; simpl.
  - repeat constructor.
  - destruct (le x y) eqn:E.
    + constructor; [by constructor|].
      constructor; [done|]. eapply Forall_impl; [exact Hy|].
      intros z Hz. by eapply le_trans.
    + constructor; [done|].
      rewrite insert_sorted_perm. constructor; auto.
Qed.

Lemma sort_values_sorted l :
  StronglySorted (λ a b, le a b = true) (sort_values le l).
Proof.
  induction l as [|x t IH]; [constructor|].
  unfold sort_values in *. simpl. by apply insert_sorted_sorted.
Qed.

End SortedBy.

(** ** Minimum and maximum of a date column *)

Lemma foldr_min_spec x t : is_min (foldr Z.min x t) (x :: t).
Proof.
  induction t as [|y t [IH1 IH2]]; simpl.
  - split; [left|]. intros z Hz. apply list_elem_of_singleton in Hz. lia.
  - split.
    + destruct (Z.min_spec y (foldr Z.min x t)) as [[_ ->]|[_ ->]].
      * right. left.
      * apply elem_of_cons in IH1 as [->|IH1]; [left | do 2 right; done].
    + intros z Hz. apply elem_of_cons in Hz as [->|Hz].
      * specialize (IH2 x (list_elem_of_here _ _)). lia.
      * apply elem_of_cons in Hz as [->|Hz]; [lia|].
        specialize (IH2 z (list_elem_of_further _ _ _ Hz)). lia.
Qed.

Lemma foldr_max_spec x t : is_max (foldr Z.max x t) (x :: t).
Proof.
  induction t as [|y t [IH1 IH2]]; simpl.
  - split; [left|]. intros z Hz. apply list_elem_of_singleton in Hz. lia.
  - split.
    + destruct (Z.max_spec y (foldr Z.max x t)) as [[_ ->]|[_ ->]].
      * apply elem_of_cons in IH1 as [->|IH1]; [left | do 2 right; done].
      * right. left.
    + intros z Hz. apply elem_of_cons in Hz as [->|Hz].
      * specialize (IH2 x (list_elem_of_here _ _)). lia.
      * apply elem_of_cons in Hz as [->|Hz]; [lia|].
        specialize (IH2 z (list_elem_of_further _ _ _ Hz)). lia.
Qed.

Lemma series_min_Some l a : series_min l = Some a → is_min a (omap id l).
Proof.
  unfold series_min. destruct (omap id l) as [|x t]; [done|].
  intros [= <-]. apply foldr_min_spec.
Qed.

Lemma series_max_Some l a : series_max l = Some a → is_max a (omap id l).
Proof.
  unfold series_max. destruct (omap id l) as [|x t]; [done|].
  intros [= <-]. apply foldr_max_spec.
Qed.

Lemma series_min_None l : series_min l = None → omap id l = [].
Proof. unfold series_min. by destruct (omap id l). Qed.

Lemma is_min_unique a b l : is_min a l → is_min b l → a = b.
Proof. intros [Ha1 Ha2] [Hb1 Hb2]. specialize (Ha2 _ Hb1). specialize (Hb2 _ Ha1). lia. Qed.

Lemma is_max_unique a b l : is_max a l → is_max b l → a = b.
Proof. intros [Ha1 Ha2] [Hb1 Hb2]. specialize (Ha2 _ Hb1). specialize (Hb2 _ Ha1). lia. Qed.

Lemma is_min_perm a l l' : l ≡ₚ l' → is_min a l → is_min a l'.
Proof.
  intros Hp [H1 H2]. split; [by rewrite <- Hp|].
  intros x Hx. apply H2. by rewrite Hp.
Qed.

Lemma is_max_perm a l l' : l ≡ₚ l' → is_max a l → is_max a l'.
Proof.
  intros Hp [H1 H2]. split; [by rewrite <- Hp|].
  intros x Hx. apply H2. by rewrite Hp.
Qed.

(** ** Rows by label *)

Lemma loc_elem frame d c :
  NoDup frame.*1 → (Some d, c) ∈ frame → loc frame d = c.
Proof.
  unfold loc. induction frame as [|[k v] t IH]; simpl; intros Hnd Hin.
  - by apply elem_of_nil in Hin.
  - apply NoDup_cons in Hnd as [Hk Hnd].
    case_bool_decide as Hkd; simpl in *.
    + apply elem_of_cons in Hin as [Heq|Hin]; [congruence|].
      exfalso. apply Hk. subst k.
      apply list_elem_of_fmap. by exists (Some d, c).
    + apply elem_of_cons in Hin as [Heq|Hin]; [congruence|]. auto.
Qed.

Lemma loc_absent frame d : Some d ∉ frame.*1 → loc frame d = nan_cells.
Proof.
  unfold loc. induction frame as [|[k v] t IH]; simpl; intros Hin; [done|].
  apply not_elem_of_cons in Hin as [Hk Hin].
  case_bool_decide as Hkd; simpl in *; [congruence|]. auto.
Qed.

Lemma loc_perm f1 f2 d : f1 ≡ₚ f2 → NoDup f1.*1 → loc f1 d = loc f2 d.
Proof.
  intros Hp Hnd.
  assert (NoDup f2.*1) as Hnd2 by (by rewrite <- Hp).
  destruct (decide (Some d ∈ f1.*1)) as [Hin|Hin].
  - apply list_elem_of_fmap in Hin as ([k c] & Hk & Hin). simpl in Hk. subst k.
    rewrite (loc_elem f1 d c); [|done..].
    symmetry. apply loc_elem; [done|]. by rewrite <- Hp.
  - rewrite (loc_absent f1); [|done].
    symmetry. apply loc_absent. by rewrite <- Hp.
Qed.

(** ** The type of the volume column *)

Lemma retype_labels f1 f2 target c :
  (∀ d, Some d ∈ f1.*1 ↔ Some d ∈ f2.*1) →
  retype f1 target c = retype f2 target c.
Proof.
  intros H. unfold retype.
  replace (forallb (λ d, bool_decide (Some d ∈ f1.*1)) target)
    with (forallb (λ d, bool_decide (Some d ∈ f2.*1)) target); [done|].
  induction target as [|d t IH]; [done|]. simpl.
  rewrite IH. f_equal. apply bool_decide_ext. symmetry. apply H.
Qed.

Lemma retype_all frame target c :
  (∀ d, d ∈ target → Some d ∈ frame.*1) → retype frame target c = c.
Proof.
  intros H. unfold retype.
  replace (forallb _ target) with true; [done|].
  symmetry. apply forallb_forall. intros d Hd.
  apply bool_decide_eq_true, H. by apply list_elem_of_In.
Qed.

Lemma retype_some frame target c d :
  d ∈ target → Some d ∉ frame.*1 →
  retype frame target c
  = {| high := high c; low := low c; close := close c;
       volume := astype_float64 (volume c) |}.
Proof.
  intros Hd Hout. unfold retype.
  destruct (forallb _ target) eqn:E; [|done].
  rewrite forallb_forall in E.
  specialize (E d (proj1 (list_elem_of_In _ _) Hd)).
  by apply bool_decide_eq_true in E.
Qed.

Lemma retype_prices frame target c :
  high (retype frame target c) = high c
  ∧ low (retype frame target c) = low c
  ∧ close (retype frame target c) = close c.
Proof. unfold retype. by destruct (forallb _ _). Qed.

Lemma retype_volume_na frame target c :
  isna_volume (volume c) = true →
  volume (retype frame target c) = volume c.
Proof.
  intros H. unfold retype. destruct (forallb _ _); [done|]. simpl.
  by destruct (volume c).
Qed.

Lemma reindexed_perm f1 f2 target :
  f1 ≡ₚ f2 → NoDup f1.*1 →
  map (λ d, (d, retype f1 target (loc f1 d))) target
  = map (λ d, (d, retype f2 target (loc f2 d))) target.
Proof.
  intros Hp Hnd. apply map_ext. intros d.
  rewrite (loc_perm f1 f2 d Hp Hnd). f_equal.
  apply retype_labels. intros d'. by rewrite Hp.
Qed.

(** ** Forward fill *)

Lemma fill_nan prev : fill prev nan = prev.
Proof. reflexivity. Qed.

Lemma ffill_row_nan prev : ffill_row prev nan_cells = prev.
Proof. by destruct prev. Qed.

Lemma ffill_from_fst prev rows : (ffill_from prev rows).*1 = rows.*1.
Proof.
  revert prev. induction rows as [|[d c] t IH]; intros prev; simpl; [done|].
  by rewrite IH.
Qed.

Lemma ffill_from_lookup_S prev rows i dp cp d c :
  ffill_from prev rows !! i = Some (dp, cp) →
  rows !! S i = Some (d, c) →
  ffill_from prev rows !! S i = Some (d, ffill_row cp c).
Proof.
  revert prev i. induction rows as [|[d0 c0] t IH]; intros prev i Hi Hs; [done|].
  destruct i as [|i]; simpl in *.
  - injection Hi as <- <-. destruct t as [|[d1 c1] t]; [done|].
    simpl in *. by injection Hs as -> ->.
  - eauto.
Qed.

(** A run of days with no cell of their own repeats the row before it. *)
Lemma ffill_from_gap prev rows i n dp cp :
  ffill_from prev rows !! i = Some (dp, cp) →
  (∀ j, (i < j ≤ i + n)%nat → ∃ d, rows !! j = Some (d, nan_cells)) →
  ∀ j, (i ≤ j ≤ i + n)%nat → ∃ d, ffill_from prev rows !! j = Some (d, cp).
Proof.
  intros Hi Hgap j [Hj1 Hj2].
  induction j as [|j IH].
  - assert (i = 0%nat) as -> by lia. eauto.
  - destruct (decide (i = S j)) as [->|Hne]; [eauto|].
    destruct IH as [d' Hd']; [lia..|].
    destruct (Hgap (S j)) as [d Hd]; [lia|].
    exists d. pose proof (ffill_from_lookup_S _ _ _ _ _ _ _ Hd' Hd) as H.
    by rewrite ffill_row_nan in H.
Qed.

Lemma fill_volume_nan prev : fill_volume prev (Float64 nan) = prev.
Proof. reflexivity. Qed.

Lemma int_nan v : isna_volume v = true → int v = Raise ValueError.
Proof.
  destruct v as [z|x]; simpl; [done|].
  unfold isna, int_of_float, Prim2SF. by intros ->.
Qed.

Local Abbreviation accepted := (λ v : Volume, ∃ z, int v = Ok z).

Lemma accepted_not_na v : accepted v → isna_volume v = false.
Proof.
  intros [z Hz]. destruct (isna_volume v) eqn:E; [|done].
  by rewrite (int_nan v E) in Hz.
Qed.

Lemma finite_accepted v : finite v → accepted v.
Proof. destruct v as [z|x]; [by eexists|done]. Qed.

Lemma finite_not_na v : finite v → isna_volume v = false.
Proof. intros H. by apply accepted_not_na, finite_accepted. Qed.

Lemma retype_accepted frame target c :
  finite (volume c) → accepted (volume (retype frame target c)).
Proof.
  intros H. unfold retype. destruct (forallb _ _); [by apply finite_accepted|done].
Qed.

Lemma retype_nan_cells frame target : retype frame target nan_cells = nan_cells.
Proof. unfold retype. by destruct (forallb _ _). Qed.

Lemma ffill_from_finite prev rows :
  accepted (volume prev) →
  Forall (λ r, isna_volume (volume r.2) = true ∨ accepted (volume r.2)) rows →
  Forall (λ r, accepted (volume r.2)) (ffill_from prev rows).
Proof.
  intros Hprev Hrows. revert prev Hprev.
  induction Hrows as [|[d c] t Hc _ IH]; intros prev Hprev; [constructor|].
  simpl in *.
  assert (accepted (fill_volume (volume prev) (volume c))) as Hfill.
  { unfold fill_volume. destruct (isna_volume (volume c)) eqn:E; [done|].
    by destruct Hc. }
  constructor; [done|]. by apply IH.
Qed.

Lemma ffill_finite d c rows :
  accepted (volume c) →
  Forall (λ r, isna_volume (volume r.2) = true ∨ accepted (volume r.2)) rows →
  Forall (λ r, accepted (volume r.2)) (ffill ((d, c) :: rows)).
Proof.
  intros Hc Hrows. unfold ffill. simpl.
  assert (fill_volume (Float64 nan) (volume c) = volume c) as Hfill
    by (unfold fill_volume; by rewrite accepted_not_na).
  constructor; simpl; [by rewrite Hfill|].
  apply ffill_from_finite; [|done]. simpl. by rewrite Hfill.
Qed.

Lemma loc_cases frame d :
  ((Some d ∉ frame.*1) ∧ loc frame d = nan_cells)
  ∨ ∃ c, (Some d, c) ∈ frame ∧ loc frame d = c.
Proof.
  unfold loc. induction frame as [|[k c] t IH]; simpl.
  - left. split; [apply not_elem_of_nil|done].
  - case_bool_decide as Hk; simpl in *.
    + right. exists c. subst k. split; [left|done].
    + destruct IH as [[Hout Heq]|(c' & Hin & Heq)].
      * left. split; [|done]. by apply not_elem_of_cons.
      * right. exists c'. split; [by right|done].
Qed.

(** ** The daily price table *)

Section PriceFacts.

Variable to_datetime_ymd : string → option Z.

Local Abbreviation index_of := (indexed to_datetime_ymd).
Local Abbreviation valid := (valid_dates to_datetime_ymd).
Local Abbreviation calendar := (on_calendar to_datetime_ymd).

Lemma valid_dates_indexed P : omap id (index_of P).*1 = valid P.
Proof.
  induction P as [|r t IH]; [done|].
  unfold indexed, valid_dates in *. cbn.
  destruct (to_datetime_ymd (date r)); cbn; by rewrite IH.
Qed.

Lemma elem_of_valid_dates P d :
  d ∈ valid P ↔ Some d ∈ (index_of P).*1.
Proof.
  rewrite <- valid_dates_indexed, list_elem_of_omap. split.
  - intros ([x|] & Hx & Heq); simplify_eq/=. done.
  - intros H. by exists (Some d).
Qed.

Lemma price_daily_Ok P rows :
  price_daily to_datetime_ymd P = Ok rows →
  ∃ D1 Dn, is_min D1 (valid P) ∧ is_max Dn (valid P)
    ∧ NoDup (index_of P).*1 ∧ rows = ffill (calendar P D1 Dn).
Proof.
  unfold price_daily. fold (index_of P).
  set (sorted := sort_values _ (index_of P)).
  assert (sorted ≡ₚ index_of P) as Hp by apply sort_values_perm.
  assert (omap id sorted.*1 ≡ₚ valid P) as Hv.
  { rewrite <- valid_dates_indexed. by rewrite Hp. }
  intros H. apply bind_Ok in H as (full_range & Hr & H).
  apply bind_Ok in H as (reindexed & Hre & H). injection H as <-.
  unfold date_range in Hr.
  destruct (series_min sorted.*1) as [D1|] eqn:Hmin; [|done].
  destruct (series_max sorted.*1) as [Dn|] eqn:Hmax; [|done].
  injection Hr as <-.
  unfold reindex in Hre. case_bool_decide as Hnd; [|done]. injection Hre as <-.
  exists D1, Dn. split_and!.
  - eapply is_min_perm; [exact Hv|]. by apply series_min_Some.
  - eapply is_max_perm; [exact Hv|]. by apply series_max_Some.
  - by rewrite <- Hp.
  - unfold on_calendar. f_equal. by apply reindexed_perm.
Qed.

Lemma valid_dates_none P :
  Forall (λ r, to_datetime_ymd (date r) = None) P → valid P = [].
Proof.
  unfold valid_dates. induction 1 as [|r t Hr _ IH]; [done|].
  cbn. by rewrite Hr.
Qed.

Lemma indexed_lookup P i r :
  P !! i = Some r → (index_of P).*1 !! i = Some (to_datetime_ymd (date r)).
Proof.
  intros H. unfold indexed. by rewrite list_lookup_fmap, lookup_map, H.
Qed.

Lemma indexed_duplicate l1 a l2 b l3 :
  to_datetime_ymd (date a) = to_datetime_ymd (date b) →
  ¬ NoDup (index_of (l1 ++ a :: l2 ++ b :: l3)).*1.
Proof.
  intros Hab Hnd.
  assert ((l1 ++ a :: l2 ++ b :: l3) !! length l1 = Some a) as Hi
    by apply list_lookup_middle, eq_refl.
  assert ((l1 ++ a :: l2 ++ b :: l3) !! (length l1 + S (length l2))%nat = Some b) as Hj.
  { rewrite lookup_app_r by lia.
    replace (length l1 + S (length l2) - length l1)%nat with (S (length l2)) by lia.
    simpl. by apply list_lookup_middle. }
  apply indexed_lookup in Hi, Hj. rewrite Hab in Hi.
  pose proof (NoDup_lookup _ _ _ _ Hnd Hi Hj). lia.
Qed.

Lemma price_daily_no_valid P :
  valid P = [] → price_daily to_datetime_ymd P = Raise ValueError.
Proof.
  intros Hv. unfold price_daily. fold (index_of P).
  set (sorted := sort_values _ (index_of P)).
  assert (omap id sorted.*1 ≡ₚ valid P) as Hp.
  { rewrite <- valid_dates_indexed. unfold sorted. by rewrite sort_values_perm. }
  rewrite Hv in Hp. apply Permutation_nil_r in Hp.
  unfold series_min. by rewrite Hp.
Qed.

Lemma price_daily_duplicate P :
  ¬ NoDup (index_of P).*1 → price_daily to_datetime_ymd P = Raise ValueError.
Proof.
  intros Hdup. unfold price_daily. fold (index_of P).
  set (sorted := sort_values _ (index_of P)).
  destruct (date_range _ _) as [full_range|e] eqn:Hr; simpl.
  - unfold reindex. case_bool_decide as Hnd; [|done].
    exfalso. apply Hdup. unfold sorted in Hnd. by rewrite sort_values_perm in Hnd.
  - unfold date_range in Hr. by repeat case_match; simplify_eq.
Qed.

(** The daily table is there as soon as some date parses and no label of
    the index repeats. *)
Lemma price_daily_complete P D1 Dn :
  is_min D1 (valid P) → is_max Dn (valid P) → NoDup (index_of P).*1 →
  price_daily to_datetime_ymd P = Ok (ffill (calendar P D1 Dn)).
Proof.
  intros Hmin Hmax Hnd. unfold price_daily. fold (index_of P).
  set (sorted := sort_values _ (index_of P)).
  assert (sorted ≡ₚ index_of P) as Hp by apply sort_values_perm.
  assert (omap id sorted.*1 ≡ₚ valid P) as Hv.
  { rewrite <- valid_dates_indexed. by rewrite Hp. }
  destruct (series_min sorted.*1) as [a|] eqn:Ha.
  2:{ apply series_min_None in Ha. rewrite Ha in Hv.
      apply Permutation_nil in Hv. destruct Hmin as [Hin _].
      rewrite Hv in Hin. by apply elem_of_nil in Hin. }
  destruct (series_max sorted.*1) as [b|] eqn:Hb.
  2:{ unfold series_max in Hb. unfold series_min in Ha.
      by destruct (omap id sorted.*1). }
  apply series_min_Some in Ha. apply series_max_Some in Hb.
  rewrite (is_min_unique _ _ _ (is_min_perm _ _ _ Hv Ha) Hmin).
  rewrite (is_max_unique _ _ _ (is_max_perm _ _ _ Hv Hb) Hmax).
  simpl. unfold reindex. rewrite bool_decide_eq_true_2 by (by rewrite Hp).
  simpl. do 2 f_equal. unfold on_calendar.
  apply reindexed_perm; [done|]. by rewrite Hp.
Qed.

(** The price rows whose date parses. *)
Lemma valid_dates_filter P :
  valid (filter (λ r, is_Some (to_datetime_ymd (date r))) P) = valid P.
Proof.
  unfold valid_dates. induction P as [|r t IH]; [done|].
  rewrite filter_cons. destruct (to_datetime_ymd (date r)) as [d|] eqn:Hd.
  - rewrite decide_True by eauto. cbn. by rewrite Hd, IH.
  - rewrite decide_False by (by intros [? ?]). cbn. by rewrite Hd.
Qed.

Lemma loc_filter P d :
  loc (index_of (filter (λ r, is_Some (to_datetime_ymd (date r))) P)) d
  = loc (index_of P) d.
Proof.
  unfold loc, indexed. induction P as [|r t IH]; [done|].
  rewrite filter_cons. destruct (to_datetime_ymd (date r)) as [d'|] eqn:Hd.
  - rewrite decide_True by eauto. simpl. rewrite Hd. simpl.
    case_bool_decide; [done|]. apply IH.
  - rewrite decide_False by (by intros [? ?]). simpl. rewrite Hd. simpl.
    apply IH.
Qed.

Lemma indexed_filter_NoDup P :
  NoDup (index_of P).*1 →
  NoDup (index_of (filter (λ r, is_Some (to_datetime_ymd (date r))) P)).*1.
Proof.
  intros Hnd. eapply sublist_NoDup; [exact Hnd|]. clear Hnd.
  unfold indexed. induction P as [|r t IH]; [done|].
  rewrite filter_cons.
  case_decide; simpl; [apply sublist_skip|apply sublist_cons]; auto.
Qed.

Lemma price_daily_filter P :
  NoDup (index_of P).*1 →
  price_daily to_datetime_ymd (filter (λ r, is_Some (to_datetime_ymd (date r))) P)
  = price_daily to_datetime_ymd P.
Proof.
  intros Hnd. set (P' := filter _ P).
  destruct (valid P) as [|x t] eqn:Hv.
  - rewrite !price_daily_no_valid; [done..|]. unfold P'. by rewrite valid_dates_filter.
  - assert (is_min (foldr Z.min x t) (valid P)) as Hmin
      by (rewrite Hv; apply foldr_min_spec).
    assert (is_max (foldr Z.max x t) (valid P)) as Hmax
      by (rewrite Hv; apply foldr_max_spec).
    rewrite (price_daily_complete P _ _ Hmin Hmax Hnd).
    rewrite (price_daily_complete P' (foldr Z.min x t) (foldr Z.max x t)).
    + do 2 f_equal. unfold on_calendar, P'. cbv zeta. apply map_ext. intros d.
      rewrite loc_filter. f_equal. apply retype_labels. intros d'.
      by rewrite <- !elem_of_valid_dates, valid_dates_filter.
    + unfold P'. by rewrite valid_dates_filter.
    + unfold P'. by rewrite valid_dates_filter.
    + by apply indexed_filter_NoDup.
Qed.

Lemma on_calendar_fst P D1 Dn : (calendar P D1 Dn).*1 = seqZ D1 (Dn - D1 + 1).
Proof.
  unfold on_calendar. cbv zeta. rewrite <- list_fmap_compose. simpl.
  apply list_fmap_id.
Qed.

Lemma on_calendar_lookup P D1 Dn (i : nat) :
  (Z.of_nat i ≤ Dn - D1) →
  calendar P D1 Dn !! i
  = Some (D1 + Z.of_nat i,
          retype (index_of P) (seqZ D1 (Dn - D1 + 1))
            (loc (index_of P) (D1 + Z.of_nat i))).
Proof.
  intros Hi. unfold on_calendar. cbv zeta.
  change (map ?f ?l) with (f <$> l). rewrite list_lookup_fmap.
  rewrite lookup_seqZ_lt; [done|lia].
Qed.

(** The cells of a day of the calendar that has no row are missing. *)
Lemma on_calendar_absent P D1 Dn (i : nat) :
  (Z.of_nat i ≤ Dn - D1) → D1 + Z.of_nat i ∉ valid P →
  calendar P D1 Dn !! i = Some (D1 + Z.of_nat i, nan_cells).
Proof.
  intros Hi Hout. rewrite on_calendar_lookup by done.
  rewrite loc_absent by (by rewrite <- elem_of_valid_dates).
  by rewrite retype_nan_cells.
Qed.

(** The type of the volume column on the calendar. *)
Lemma retype_gapless P D1 Dn c :
  gapless to_datetime_ymd P D1 Dn →
  retype (index_of P) (seqZ D1 (Dn - D1 + 1)) c = c.
Proof.
  intros H. apply retype_all. intros d Hd.
  apply elem_of_seqZ in Hd. apply elem_of_valid_dates, H. lia.
Qed.

Lemma retype_gap P D1 Dn c d :
  D1 ≤ d ≤ Dn → d ∉ valid P →
  retype (index_of P) (seqZ D1 (Dn - D1 + 1)) c
  = {| high := high c; low := low c; close := close c;
       volume := astype_float64 (volume c) |}.
Proof.
  intros Hd Hout. apply (retype_some _ _ _ d).
  - apply elem_of_seqZ. lia.
  - by rewrite <- elem_of_valid_dates.
Qed.

End PriceFacts.

(** ** Order of the time texts *)

Lemma ascii_compare_Lt_trans a b c :
  Ascii.compare a b = Lt → Ascii.compare b c = Lt → Ascii.compare a c = Lt.
Proof.
  unfold Ascii.compare. rewrite !N.compare_lt_iff. lia.
Qed.

Lemma string_compare_Lt_trans s1 s2 s3 :
  String.compare s1 s2 = Lt → String.compare s2 s3 = Lt → String.compare s1 s3 = Lt.
Proof.
  revert s2 s3. induction s1 as [|a s1 IH]; intros [|b s2] [|c s3]; simpl; try done.
  destruct (Ascii.compare a b) eqn:Hab; try done;
    destruct (Ascii.compare b c) eqn:Hbc; try done.
  - apply Ascii.compare_eq_iff in Hab as ->. rewrite Hbc. eauto.
  - apply Ascii.compare_eq_iff in Hab as ->. by rewrite Hbc.
  - apply Ascii.compare_eq_iff in Hbc as <-. by rewrite Hab.
  - by rewrite (ascii_compare_Lt_trans a b c).
Qed.

Lemma string_leb_spec s1 s2 :
  String.leb s1 s2 = true ↔ s1 = s2 ∨ String.compare s1 s2 = Lt.
Proof.
  unfold String.leb. destruct (String.compare s1 s2) eqn:E.
  - apply String.compare_eq_iff in E. tauto.
  - tauto.
  - split; [done|]. intros [->|?]; [|done].
    assert (String.compare s2 s2 = Eq) as Heq.
    { pose proof (String.compare_antisym s2 s2) as Ha.
      destruct (String.compare s2 s2); done. }
    congruence.
Qed.

Lemma string_leb_trans s1 s2 s3 :
  String.leb s1 s2 = true → String.leb s2 s3 = true → String.leb s1 s3 = true.
Proof.
  rewrite !string_leb_spec. intros [->|H12] [->|H23]; auto.
  right. by eapply string_compare_Lt_trans.
Qed.

Lemma news_le_total a b : news_le a b = false → news_le b a = true.
Proof.
  unfold news_le. intros H.
  apply orb_false_iff in H as [H1 H2]. apply Z.ltb_ge in H1.
  destruct (Z.eqb_spec (date_only a) (date_only b)) as [Heq|Hne]; simpl in H2.
  - rewrite Heq, Z.eqb_refl, Z.ltb_irrefl. simpl.
    destruct (String.leb_total (time_str a) (time_str b)); congruence.
  - apply orb_true_iff. left. apply Z.ltb_lt. lia.
Qed.

Lemma news_le_trans a b c :
  news_le a b = true → news_le b c = true → news_le a c = true.
Proof.
  unfold news_le. rewrite !orb_true_iff, !andb_true_iff, !Z.ltb_lt, !Z.eqb_eq.
  intros [H1|[H1 L1]] [H2|[H2 L2]]; try (left; lia).
  right. split; [lia|]. by eapply string_leb_trans.
Qed.

Lemma news_le_same_day a b :
  date_only a = date_only b → news_le a b = true →
  String.leb (time_str a) (time_str b) = true.
Proof.
  unfold news_le. intros ->. rewrite Z.ltb_irrefl, Z.eqb_refl. done.
Qed.

(** ** Days and their printed dates *)

Lemma year_of_era doe :
  0 ≤ doe ≤ 146096 →
  let yoe := (doe - doe / 1460 + doe / 36524 - doe / 146096) / 365 in
  0 ≤ yoe ≤ 399 ∧ 0 ≤ doe - (365 * yoe + yoe / 4 - yoe / 100) ≤ 365.
Proof. intros H yoe. subst yoe. Z.div_mod_to_equations; lia. Qed.

Ltac open_civil z :=
  unfold Calendar.civil_from_days;
  set (z' := z + 719468); set (era := z' / 146097);
  set (doe := z' - era * 146097);
  assert (0 ≤ doe ≤ 146096) as Hdoe
    by (subst doe era; Z.div_mod_to_equations; lia);
  pose proof (year_of_era doe Hdoe) as (Hyoe & Hdoy);
  set (yoe := (doe - doe / 1460 + doe / 36524 - doe / 146096) / 365) in *;
  set (doy := doe - (365 * yoe + yoe / 4 - yoe / 100)) in *.

(** The month and the day of a civil date are in their ranges. *)
Lemma civil_from_days_range z :
  let '(y, m, d) := Calendar.civil_from_days z in 1 ≤ m ≤ 12 ∧ 1 ≤ d ≤ 31.
Proof.
  open_civil z. clearbody yoe doy. clear Hdoe. clearbody doe.
  set (mp := (5 * doy + 2) / 153).
  assert (0 ≤ mp ≤ 11) by (subst mp; Z.div_mod_to_equations; lia).
  destruct (Z.ltb_spec mp 10); split; try lia.
  all: subst mp; Z.div_mod_to_equations; lia.
Qed.

(** The years of the days a nanosecond [Timestamp] can hold have four
    digits. *)
Lemma civil_from_days_year z :
  Calendar.min_day ≤ z ≤ Calendar.max_day →
  let '(y, m, d) := Calendar.civil_from_days z in 1000 ≤ y ≤ 9999.
Proof.
  unfold Calendar.min_day, Calendar.max_day. intros Hz. open_civil z.
  assert (4 ≤ era ≤ 5) as Hera by (subst era z'; Z.div_mod_to_equations; lia).
  destruct (_ <=? 2); lia.
Qed.

(** The day number of the civil date of a day is that day. *)
Lemma days_from_civil_from_days z :
  let '(y, m, d) := Calendar.civil_from_days z in
  Calendar.days_from_civil y m d = z.
Proof.
  open_civil z.
  assert (z = era * 146097 + doe - 719468) as Hz by (subst doe z'; lia).
  assert (doe = yoe * 365 + yoe / 4 - yoe / 100 + doy) as Hdoe' by (subst doy; lia).
  clearbody yoe doy. clearbody doe era. clear z'.
  set (mp := (5 * doy + 2) / 153).
  assert (0 ≤ mp ≤ 11) as Hmp by (subst mp; Z.div_mod_to_equations; lia).
  assert (doy = (153 * mp + 2) / 5 + (doy - (153 * mp + 2) / 5 + 1) - 1) as Hd by lia.
  set (d := doy - (153 * mp + 2) / 5 + 1) in *.
  clearbody d. clearbody mp.
  unfold Calendar.days_from_civil.
  destruct (Z.ltb_spec mp 10) as [Hlt|Hge].
  - replace (mp + 3 <=? 2) with false by (symmetry; apply Z.leb_gt; lia).
    replace (2 <? mp + 3) with true by (symmetry; apply Z.ltb_lt; lia).
    replace (mp + 3 - 3) with mp by lia.
    replace ((yoe + era * 400) / 400) with era by (Z.div_mod_to_equations; lia).
    replace (yoe + era * 400 - era * 400) with yoe by lia.
    lia.
  - replace (mp - 9 <=? 2) with true by (symmetry; apply Z.leb_le; lia).
    replace (2 <? mp - 9) with false by (symmetry; apply Z.ltb_ge; lia).
    replace (mp - 9 + 9) with mp by lia.
    replace (yoe + era * 400 + 1 - 1) with (yoe + era * 400) by lia.
    replace ((yoe + era * 400) / 400) with era by (Z.div_mod_to_equations; lia).
    replace (yoe + era * 400 - era * 400) with yoe by lia.
    lia.
Qed.

Lemma string_app_inj (s1 s2 t1 t2 : string) :
  String.length s1 = String.length s2 →
  (s1 ++ t1 = s2 ++ t2)%string → s1 = s2 ∧ t1 = t2.
Proof.
  revert s2. induction s1 as [|c s1 IH]; intros [|c' s2] Hlen Heq;
    simplify_eq/=; [done|].
  destruct (IH s2) as [-> ->]; done.
Qed.

Lemma string_length_app (s t : string) :
  String.length (s ++ t)%string = (String.length s + String.length t)%nat.
Proof. induction s as [|c s IH]; simpl; [done|]. by rewrite IH. Qed.

Lemma zfill_length w n : String.length (Calendar.zfill w n) = w.
Proof.
  revert n. induction w as [|w IH]; intros n; [done|].
  simpl. rewrite string_length_app, IH. simpl. lia.
Qed.

Lemma digit_inj a b : Calendar.digit a = Calendar.digit b → a mod 10 = b mod 10.
Proof.
  unfold Calendar.digit. intros H.
  apply (f_equal N_of_ascii) in H.
  rewrite !N_ascii_embedding in H by (Z.div_mod_to_equations; lia).
  Z.div_mod_to_equations; lia.
Qed.

Lemma zfill_inj w a b :
  0 ≤ a < 10 ^ Z.of_nat w → 0 ≤ b < 10 ^ Z.of_nat w →
  Calendar.zfill w a = Calendar.zfill w b → a = b.
Proof.
  revert a b. induction w as [|w IH]; intros a b Ha Hb H.
  - simpl in *. lia.
  - rewrite Nat2Z.inj_succ, Z.pow_succ_r in Ha, Hb by lia.
    simpl in H. apply string_app_inj in H as [Hq Hr];
      [|by rewrite !zfill_length].
    injection Hr as Hr%digit_inj.
    apply IH in Hq; [|Z.div_mod_to_equations; lia..].
    Z.div_mod_to_equations; lia.
Qed.

(** Within the days a nanosecond [Timestamp] can hold, two days with the
    same printed date are the same day. *)
Lemma strftime_ymd_inj a b :
  Calendar.min_day ≤ a ≤ Calendar.max_day →
  Calendar.min_day ≤ b ≤ Calendar.max_day →
  Calendar.strftime_ymd a = Calendar.strftime_ymd b → a = b.
Proof.
  intros Ha Hb H. unfold Calendar.strftime_ymd in H.
  pose proof (civil_from_days_range a) as Hra.
  pose proof (civil_from_days_range b) as Hrb.
  pose proof (civil_from_days_year a Ha) as Hya.
  pose proof (civil_from_days_year b Hb) as Hyb.
  pose proof (days_from_civil_from_days a) as Hda.
  pose proof (days_from_civil_from_days b) as Hdb.
  destruct (Calendar.civil_from_days a) as [[ya ma] da].
  destruct (Calendar.civil_from_days b) as [[yb mb] db].
  apply string_app_inj in H as [Hy H]; [|by rewrite !zfill_length].
  apply (string_app_inj "-" "-") in H as [_ H]; [|done].
  apply string_app_inj in H as [Hm H]; [|by rewrite !zfill_length].
  apply (string_app_inj "-" "-") in H as [_ Hd]; [|done].
  apply zfill_inj in Hy; [|simpl; lia..].
  apply zfill_inj in Hm; [|simpl; lia..].
  apply zfill_inj in Hd; [|simpl; lia..].
  congruence.
Qed.

Lemma strftime_ymd_seqZ_NoDup a n :
  Calendar.min_day ≤ a → a + n - 1 ≤ Calendar.max_day →
  NoDup (Calendar.strftime_ymd <$> seqZ a n).
Proof.
  intros Ha Hb. apply NoDup_fmap_2_strong; [|apply NoDup_seqZ].
  intros x y Hx%elem_of_seqZ Hy%elem_of_seqZ. apply strftime_ymd_inj; lia.
Qed.

(** ** Grouping by date *)

Lemma groupby_date_only_lookup lines d :
  default [] (groupby_date_only lines !! d)
  = headline_of <$> filter (λ g, date_only g = d) lines.
Proof.
  induction lines as [|g t IH]; simpl; [done|].
  rewrite filter_cons. destruct (decide (date_only g = d)) as [->|Hne].
  - rewrite lookup_insert_eq. simpl. by rewrite IH.
  - by rewrite lookup_insert_ne.
Qed.

Lemma day_lines_sorted lines d :
  StronglySorted (λ a b, news_le a b = true) lines →
  time_ascending (headline_of <$> filter (λ g, date_only g = d) lines).
Proof.
  unfold time_ascending. induction 1 as [|g t Hs IH Hg]; [constructor|].
  rewrite filter_cons. destruct (decide (date_only g = d)) as [Hd|Hne]; [|done].
  simpl. constructor; [done|].
  apply Forall_fmap, Forall_forall. intros h Hh. simpl.
  apply list_elem_of_filter in Hh as [Hhd Hh].
  apply news_le_same_day; [congruence|].
  rewrite Forall_forall in Hg. auto.
Qed.

Lemma ffill_from_lookup_l prev rows i d c0 :
  rows !! i = Some (d, c0) → ∃ c, ffill_from prev rows !! i = Some (d, c).
Proof.
  intros H.
  assert ((ffill_from prev rows).*1 !! i = Some d) as Hd.
  { by rewrite ffill_from_fst, list_lookup_fmap, H. }
  rewrite list_lookup_fmap in Hd.
  destruct (ffill_from prev rows !! i) as [[d' c]|]; simplify_eq/=. eauto.
Qed.

Lemma ffill_from_lookup_r prev rows i d c :
  ffill_from prev rows !! i = Some (d, c) → ∃ c0, rows !! i = Some (d, c0).
Proof.
  intros H.
  assert (rows.*1 !! i = Some d) as Hd.
  { by rewrite <- (ffill_from_fst prev), list_lookup_fmap, H. }
  rewrite list_lookup_fmap in Hd.
  destruct (rows !! i) as [[d' c0]|]; simplify_eq/=. eauto.
Qed.

Lemma ffill_from_lookup_row prev rows i d c c0 :
  ffill_from prev rows !! i = Some (d, c) → rows !! i = Some (d, c0) →
  ∃ prev', c = ffill_row prev' c0.
Proof.
  revert prev i. induction rows as [|[d1 c1] t IH]; intros prev i Hi Hr; [done|].
  destruct i as [|i]; simpl in *.
  - injection Hi as <- <-. injection Hr as <-. eauto.
  - eauto.
Qed.

Lemma fill_present prev x : isna x = false → fill prev x = x.
Proof. unfold fill. by intros ->. Qed.

(** The last day with a row before a day without one. *)
Lemma last_row_before (valid : list Z) D1 d :
  D1 ∈ valid → D1 ≤ d → d ∉ valid →
  ∃ d', D1 ≤ d' < d ∧ d' ∈ valid ∧ ∀ x, d' < x ≤ d → x ∉ valid.
Proof.
  intros HD1 Hle Hd.
  remember (Z.to_nat (d - D1)) as n eqn:Hn.
  revert d Hle Hd Hn. induction n as [|n IH]; intros d Hle Hd Hn.
  - assert (d = D1) as -> by lia. done.
  - destruct (decide (d - 1 ∈ valid)) as [Hin|Hout].
    + exists (d - 1). split_and!; [lia..|done|].
      intros x Hx. by assert (x = d) as -> by lia.
    + destruct (IH (d - 1)) as (d' & Hd' & Hin & Hgap); [lia|done|lia|].
      exists d'. split_and!; [lia..|done|].
      intros x Hx. destruct (decide (x = d)) as [->|Hne]; [done|].
      apply Hgap. lia.
Qed.

(** ** The parsed column *)

Lemma select_app {A} (m1 m2 : list bool) (l1 l2 : list A) :
  length m1 = length l1 →
  select (m1 ++ m2) (l1 ++ l2) = select m1 l1 ++ select m2 l2.
Proof.
  revert l1. induction m1 as [|b m1 IH]; intros [|x l1] Hlen; simplify_eq/=; [done|].
  rewrite IH by done. by destruct b.
Qed.

Lemma assign_masked_length mask parsed values :
  length mask = length parsed →
  length (assign_masked mask parsed values) = length parsed.
Proof.
  revert parsed values.
  induction mask as [|b m IH]; intros [|p ps] vs Hlen; simplify_eq/=; [done|].
  destruct b; [destruct vs|]; simpl; by rewrite IH.
Qed.

Lemma assign_masked_app m1 m2 p1 p2 values :
  length m1 = length p1 →
  assign_masked (m1 ++ m2) (p1 ++ p2) values
  = assign_masked m1 p1 values
    ++ assign_masked m2 p2 (drop (length (select m1 p1)) values).
Proof.
  revert p1 values.
  induction m1 as [|b m1 IH]; intros [|p p1] vs Hlen; simplify_eq/=; [done|].
  destruct b; simpl.
  - destruct vs as [|v vs]; simpl; rewrite IH by done; [|done].
    by rewrite drop_nil.
  - by rewrite IH.
Qed.

Section ParsedFacts.

Variable to_datetime_tz : string → result (option Z).
Variable to_datetime_any : list string → result (list (option Z)).

Local Abbreviation refused := (λ r : NewsRow, to_datetime_tz (Date r) = Ok None).
Local Abbreviation read_as :=
  (λ (r : NewsRow) (p : option Z), to_datetime_tz (Date r) = Ok p).
Local Abbreviation mask_of :=
  (λ first : list (option Z), map (λ p : option Z, bool_decide (p = None)) first).

(** The column of the format, cell by cell. *)
Lemma for_each_first_pass N first :
  for_each to_datetime_tz (map Date N) = Ok first ↔ Forall2 read_as N first.
Proof.
  split.
  - intros H. apply for_each_Ok in H. by apply Forall2_fmap_l in H.
  - induction 1 as [|r p N' first' Hr _ IH]; simpl; [done|].
    rewrite Hr. simpl. by rewrite IH.
Qed.

Lemma select_mask_cells N first :
  Forall2 read_as N first →
  select (mask_of first) (map Date N) = fallback_cells to_datetime_tz N.
Proof.
  unfold fallback_cells. induction 1 as [|r p N' first' Hr _ IH]; [done|].
  rewrite filter_cons. cbn. rewrite IH.
  case_bool_decide as Hp; case_decide as Hd; [done| | |done].
  - subst p. by destruct Hd.
  - rewrite Hr in Hd. by injection Hd.
Qed.

Lemma select_mask_length N first :
  Forall2 read_as N first →
  length (select (mask_of first) first)
  = length (fallback_cells to_datetime_tz N).
Proof.
  unfold fallback_cells. induction 1 as [|r p N' first' Hr _ IH]; [done|].
  rewrite filter_cons. cbn.
  case_bool_decide as Hp; case_decide as Hd; cbn; [by rewrite IH| | |done].
  - subst p. by destruct Hd.
  - rewrite Hr in Hd. by injection Hd.
Qed.

Lemma mask_refused N first :
  Forall2 read_as N first →
  existsb id (mask_of first) = true ↔ Exists refused N.
Proof.
  induction 1 as [|r p N' first' Hr _ IH]; simpl.
  - split; [done|]. by intros H%Exists_nil.
  - rewrite Exists_cons, orb_true_iff, IH. unfold id.
    rewrite bool_decide_eq_true, Hr. split; intros [H|H]; auto.
    + left. by subst.
    + left. by injection H.
Qed.

Lemma parsed_refused N first :
  Forall2 read_as N first → Exists refused N →
  parsed to_datetime_tz to_datetime_any (map Date N)
  = (values ← to_datetime_any (fallback_cells to_datetime_tz N);
     Ok (assign_masked (mask_of first) first values)).
Proof.
  intros Hf Hex. unfold parsed.
  rewrite (proj2 (for_each_first_pass N first) Hf). simpl.
  rewrite (proj2 (mask_refused N first Hf) Hex).
  by rewrite (select_mask_cells N first Hf).
Qed.

Lemma parsed_none_refused N first :
  Forall2 read_as N first → ¬ Exists refused N →
  parsed to_datetime_tz to_datetime_any (map Date N) = Ok first.
Proof.
  intros Hf Hex. unfold parsed.
  rewrite (proj2 (for_each_first_pass N first) Hf). simpl.
  destruct (existsb id _) eqn:E; [|done].
  destruct Hex. by apply (mask_refused N first Hf).
Qed.

(** When the column is there, each cell was read by the format, and the
    parse with no format has read the cells that the format refused. *)
Lemma parsed_Ok N column :
  parsed to_datetime_tz to_datetime_any (map Date N) = Ok column →
  ∃ first, Forall2 read_as N first
    ∧ ((¬ Exists refused N ∧ column = first)
       ∨ (Exists refused N
          ∧ ∃ values,
              to_datetime_any (fallback_cells to_datetime_tz N) = Ok values
              ∧ column = assign_masked (mask_of first) first values)).
Proof.
  intros H.
  destruct (for_each to_datetime_tz (map Date N)) as [first|e] eqn:Hfirst.
  2:{ unfold parsed in H. by rewrite Hfirst in H. }
  apply for_each_first_pass in Hfirst. exists first. split; [done|].
  destruct (decide (Exists refused N)) as [Hex|Hex].
  - right. split; [done|]. rewrite (parsed_refused N first Hfirst Hex) in H.
    apply bind_Ok in H as (values & Hv & H). injection H as <-. eauto.
  - left. split; [done|]. rewrite (parsed_none_refused N first Hfirst Hex) in H.
    by injection H.
Qed.

Lemma parsed_length N column :
  parsed to_datetime_tz to_datetime_any (map Date N) = Ok column →
  length column = length N.
Proof.
  intros H. apply parsed_Ok in H as (first & Hf & [[_ ->]|(_ & values & _ & ->)]).
  - symmetry. by eapply Forall2_length.
  - rewrite assign_masked_length by (by rewrite length_map).
    symmetry. by eapply Forall2_length.
Qed.

(** The parsed column around a row the format refuses: the value of that
    row is what the parse with no format returns at its position. *)
Lemma parsed_split pre r post column :
  refused r →
  let N := pre ++ r :: post in
  let k := length (fallback_cells to_datetime_tz pre) in
  parsed to_datetime_tz to_datetime_any (map Date N) = Ok column →
  ∃ values A B,
    to_datetime_any (fallback_cells to_datetime_tz N) = Ok values
    ∧ length A = length pre
    ∧ column = A ++ default None (values !! k) :: B.
Proof.
  intros Hr N k H.
  apply parsed_Ok in H as (first & Hf & [[Hno _]|(_ & values & Hv & ->)]).
  { destruct Hno. apply Exists_app. right. by left. }
  exists values. subst N.
  apply Forall2_app_inv_l in Hf as (f1 & f2 & Hf1 & Hf2 & ->).
  apply Forall2_cons_inv_l in Hf2 as (p & f3 & Hp & Hf3 & ->).
  rewrite Hr in Hp. injection Hp as <-.
  rewrite !map_app. simpl map.
  rewrite assign_masked_app by (by rewrite !length_map).
  rewrite (select_mask_length pre f1 Hf1). fold k. simpl.
  assert (length (assign_masked (mask_of f1) f1 values) = length pre) as Hlen.
  { rewrite assign_masked_length by (by rewrite length_map).
    symmetry. by eapply Forall2_length. }
  destruct (drop k values) as [|v vs] eqn:Hdrop.
  - rewrite (lookup_ge_None_2 values k); [by eexists _, _|].
    apply drop_nil_inv in Hdrop. lia.
  - assert (values !! k = Some v) as ->; [|by eexists _, _].
    by rewrite <- (Nat.add_0_r k), <- lookup_drop, Hdrop.
Qed.

Lemma assign_masked_keep mask parsed values i p :
  mask !! i = Some false → parsed !! i = Some p →
  assign_masked mask parsed values !! i = Some p.
Proof.
  revert parsed values i.
  induction mask as [|b m IH]; intros [|q ps] vs [|i] Hm Hp; simplify_eq/=; try done.
  - destruct b; [destruct vs|]; simpl; eauto.
Qed.

Lemma parsed_first_pass N column i r t :
  parsed to_datetime_tz to_datetime_any (map Date N) = Ok column →
  N !! i = Some r → to_datetime_tz (Date r) = Ok (Some t) →
  column !! i = Some (Some t).
Proof.
  intros H Hi Ht.
  apply parsed_Ok in H as (first & Hf & Hcol).
  destruct (Forall2_lookup_l _ _ _ _ _ Hf Hi) as (p & Hp & Hrp).
  rewrite Ht in Hrp. injection Hrp as <-.
  destruct Hcol as [[_ ->]|(_ & values & _ & ->)]; [done|].
  apply assign_masked_keep; [|done]. by rewrite lookup_map, Hp.
Qed.

(** When the format refuses no cell, the parse with no format plays no
    part. *)
Lemma parsed_all_first_pass any' N :
  Forall (λ r, ¬ refused r) N →
  parsed to_datetime_tz to_datetime_any (map Date N)
  = parsed to_datetime_tz any' (map Date N).
Proof.
  intros Hall. unfold parsed.
  destruct (for_each to_datetime_tz (map Date N)) as [first|e] eqn:Hfirst; [|done].
  simpl. apply for_each_first_pass in Hfirst.
  destruct (existsb id _) eqn:E; [|done].
  apply (mask_refused N first Hfirst) in E.
  apply Exists_exists in E as (r & Hin & Hr).
  rewrite Forall_forall in Hall. by destruct (Hall r Hin).
Qed.

Lemma dropna_elem N parsed i r t :
  N !! i = Some r → parsed !! i = Some (Some t) →
  news_line r t ∈ dropna N parsed.
Proof.
  intros Hi Hp. unfold dropna. apply list_elem_of_omap.
  exists (r, Some t). split; [|done].
  apply list_elem_of_lookup. exists i.
  by rewrite lookup_zip_with, Hi, Hp.
Qed.

Lemma dropna_app l1 l2 p1 p2 :
  length l1 = length p1 →
  dropna (l1 ++ l2) (p1 ++ p2) = dropna l1 p1 ++ dropna l2 p2.
Proof.
  intros Hlen. unfold dropna. rewrite zip_with_app by done. apply omap_app.
Qed.

End ParsedFacts.

(** ** The document *)

Section AggregateFacts.

Variable to_datetime_ymd : string → option Z.
Variable to_datetime_tz : string → result (option Z).
Variable to_datetime_any : list string → result (list (option Z)).

Local Abbreviation valid := (valid_dates to_datetime_ymd).
Local Abbreviation calendar := (on_calendar to_datetime_ymd).
Local Abbreviation run := (aggregate to_datetime_ymd to_datetime_tz to_datetime_any).
Local Abbreviation column_of N :=
  (parsed to_datetime_tz to_datetime_any (map Date N)).

Lemma day_record_Ok nbd row y :
  day_record nbd row = Ok y →
  Doc.date y = Calendar.strftime_ymd row.1
  ∧ Doc.news_headlines y = default [] (nbd !! row.1)
  ∧ Doc.high (Doc.market_data y) = high row.2
  ∧ Doc.low (Doc.market_data y) = low row.2
  ∧ Doc.close (Doc.market_data y) = close row.2
  ∧ int (volume row.2) = Ok (Doc.volume (Doc.market_data y)).
Proof.
  unfold day_record. intros H. apply bind_Ok in H as (v & Hv & H).
  injection H as <-. simpl. by rewrite Hv.
Qed.

Lemma day_record_same_cells nbd d d' c y y' :
  day_record nbd (d, c) = Ok y → day_record nbd (d', c) = Ok y' →
  Doc.market_data y = Doc.market_data y'.
Proof.
  intros H H'. apply day_record_Ok in H as (_ & _ & Hh & Hl & Hc & Hv).
  apply day_record_Ok in H' as (_ & _ & Hh' & Hl' & Hc' & Hv').
  simpl in *. destruct (Doc.market_data y), (Doc.market_data y'). simpl in *.
  congruence.
Qed.

Lemma for_each_dates nbd rows h :
  for_each (day_record nbd) rows = Ok h →
  Doc.date <$> h = Calendar.strftime_ymd <$> rows.*1.
Proof.
  intros H. apply for_each_Ok in H.
  induction H as [|x y l l' Hxy _ IH]; [done|].
  rewrite !fmap_cons. f_equal; [|done]. by apply day_record_Ok in Hxy as [-> _].
Qed.

(** A document is written only when the headline dates were parsed. *)
Lemma aggregate_parsed P N doc :
  run P N = Ok doc → ∃ column, column_of N = Ok column.
Proof.
  unfold aggregate. intros H. apply bind_Ok in H as (daily & _ & H).
  apply bind_Ok in H as (column & Hc & _). eauto.
Qed.

Lemma aggregate_Ok P N doc column D1 Dn :
  run P N = Ok doc → column_of N = Ok column →
  is_min D1 (valid P) → is_max Dn (valid P) →
  NoDup (indexed to_datetime_ymd P).*1
  ∧ for_each (day_record (news_by_date N column)) (ffill (calendar P D1 Dn))
    = Ok (Doc.history doc).
Proof.
  unfold aggregate. intros H Hcol Hmin Hmax.
  apply bind_Ok in H as (daily & Hd & H).
  apply price_daily_Ok in Hd as (D1' & Dn' & Hmin' & Hmax' & Hnd & ->).
  rewrite (is_min_unique _ _ _ Hmin Hmin'), (is_max_unique _ _ _ Hmax Hmax').
  rewrite Hcol in H. simpl in H.
  unfold combine in H. apply bind_Ok in H as (h & Hh & H). injection H as <-.
  done.
Qed.

Lemma history_lookup P N doc column D1 Dn (i : nat) :
  run P N = Ok doc → column_of N = Ok column →
  is_min D1 (valid P) → is_max Dn (valid P) →
  Z.of_nat i ≤ Dn - D1 →
  ∃ c r, ffill (calendar P D1 Dn) !! i = Some (D1 + Z.of_nat i, c)
    ∧ Doc.history doc !! i = Some r
    ∧ day_record (news_by_date N column) (D1 + Z.of_nat i, c) = Ok r.
Proof.
  intros H Hcol Hmin Hmax Hi.
  destruct (aggregate_Ok _ _ _ _ _ _ H Hcol Hmin Hmax) as [_ Hh].
  pose proof (on_calendar_lookup to_datetime_ymd P D1 Dn i Hi) as Hc.
  apply (ffill_from_lookup_l nan_cells) in Hc as [c Hc].
  destruct (for_each_lookup _ _ _ _ _ Hh Hc) as (r & Hr & Hrec).
  eauto.
Qed.

Lemma for_each_total {A B} (f : A → result B) (l : list A) :
  Forall (λ x, ∃ y, f x = Ok y) l → ∃ ys, for_each f l = Ok ys.
Proof.
  induction 1 as [|x t [y Hy] _ [ys Hys]]; simpl; [by eexists|].
  rewrite Hy. simpl. rewrite Hys. by eexists.
Qed.

Lemma on_calendar_finite P D1 Dn :
  Forall (λ r, finite (volume (cells r))) P →
  Forall (λ r, isna_volume (volume r.2) = true ∨ accepted (volume r.2))
    (calendar P D1 Dn).
Proof.
  intros HP. unfold on_calendar. cbv zeta. apply Forall_forall. intros x Hx.
  apply list_elem_of_In, in_map_iff in Hx as (d & <- & _). simpl.
  destruct (loc_cases (indexed to_datetime_ymd P) d) as [[_ ->]|(c & Hin & ->)].
  - left. by rewrite retype_nan_cells.
  - right. apply retype_accepted. unfold indexed in Hin.
    apply list_elem_of_In, in_map_iff in Hin as (r & [= _ <-] & Hr).
    rewrite Forall_forall in HP. by apply HP, list_elem_of_In.
Qed.

(** X1: the document is written as soon as some date parses, no label of
    the index repeats ([NaT] counted), every volume cell is a number, and
    the parse of the headline dates does not raise. *)
Lemma aggregate_total P N column D1 Dn :
  is_min D1 (valid P) → is_max Dn (valid P) →
  NoDup (indexed to_datetime_ymd P).*1 →
  Forall (λ r, finite (volume (cells r))) P →
  parsed to_datetime_tz to_datetime_any (map Date N) = Ok column →
  ∃ doc, aggregate to_datetime_ymd to_datetime_tz to_datetime_any P N = Ok doc.
Proof.
  intros Hmin Hmax Hnd HP Hcol. unfold aggregate.
  rewrite (price_daily_complete _ P D1 Dn Hmin Hmax Hnd). simpl.
  rewrite Hcol. simpl.
  assert (D1 ≤ Dn) as Hle by (apply Hmin, Hmax).
  assert (Forall (λ r, accepted (volume r.2)) (ffill (calendar P D1 Dn))) as Hfin.
  { pose proof (on_calendar_finite P D1 Dn HP) as Hcal.
    destruct (calendar P D1 Dn) as [|[d c] rows] eqn:Hrows.
    { constructor. }
    apply Forall_cons in Hcal as [H1 Hcal].
    apply ffill_finite; [|done]. simpl in H1.
    destruct H1 as [H1|H1]; [|done]. exfalso.
    pose proof (on_calendar_lookup to_datetime_ymd P D1 Dn 0 ltac:(lia)) as H0.
    rewrite Hrows in H0. simpl in H0. injection H0 as -> ->.
    rewrite Z.add_0_r in H1.
    destruct (loc_cases (indexed to_datetime_ymd P) D1) as [[Hout _]|(c & Hin & Heq)].
    - apply Hout. rewrite <- elem_of_valid_dates. apply Hmin.
    - rewrite Heq in H1. unfold indexed in Hin.
      apply list_elem_of_In, in_map_iff in Hin as (r & [= _ <-] & Hr).
      rewrite Forall_forall in HP.
      pose proof (retype_accepted (indexed to_datetime_ymd P)
                    (seqZ D1 (Dn - D1 + 1)) (cells r)
                    (HP r (proj2 (list_elem_of_In _ _) Hr))) as Hacc.
      apply accepted_not_na in Hacc. congruence. }
  unfold combine.
  destruct (for_each_total (day_record (news_by_date N column))
              (ffill (calendar P D1 Dn))) as [h Hh].
  { eapply Forall_impl; [exact Hfin|]. intros [d c] [z Hz]. simpl in Hz.
    unfold day_record. simpl. rewrite Hz. by eexists. }
  rewrite Hh. by eexists.
Qed.

(** A price table with two dates that do not parse has the label [NaT]
    twice in its index: the call raises. *)
Lemma unparseable_twice_raises l1 a l2 b l3 N :
  to_datetime_ymd (date a) = None → to_datetime_ymd (date b) = None →
  run (l1 ++ a :: l2 ++ b :: l3) N = Raise ValueError.
Proof.
  intros Ha Hb. unfold aggregate.
  rewrite price_daily_duplicate; [done|].
  apply indexed_duplicate. congruence.
Qed.

(** X2: a written document does not depend on the price rows whose date
    does not parse: without them the call writes the same document. *)
Lemma unparseable_rows_dropped P N doc :
  aggregate to_datetime_ymd to_datetime_tz to_datetime_any P N = Ok doc →
  aggregate to_datetime_ymd to_datetime_tz to_datetime_any
    (filter (λ r, is_Some (to_datetime_ymd (date r))) P) N = Ok doc.
Proof.
  intros H. unfold aggregate in *.
  destruct (price_daily to_datetime_ymd P) as [daily|] eqn:Hd; [|done].
  pose proof (price_daily_Ok _ _ _ Hd) as (_ & _ & _ & _ & Hnd & _).
  by rewrite price_daily_filter, Hd.
Qed.



(** C2: in a written document, a day of the calendar with no price row of
    its own carries the market data of the last earlier day that has a
    price row. *)
Theorem forward_fill P N doc D1 Dn d :
  run P N = Ok doc →
  is_min D1 (valid P) → is_max Dn (valid P) →
  D1 ≤ d ≤ Dn → d ∉ valid P →
  ∃ d' r r',
    D1 ≤ d' < d ∧ d' ∈ valid P ∧ (∀ x, d' < x ≤ d → x ∉ valid P)
    ∧ Doc.history doc !! Z.to_nat (d' - D1) = Some r'
    ∧ Doc.history doc !! Z.to_nat (d - D1) = Some r
    ∧ Doc.date r' = Calendar.strftime_ymd d'
    ∧ Doc.date r = Calendar.strftime_ymd d
    ∧ Doc.market_data r = Doc.market_data r'.
Proof.
  intros H Hmin Hmax Hd Hout.
  destruct (aggregate_parsed _ _ _ H) as [column Hcol].
  destruct (last_row_before (valid P) D1 d) as (d' & Hd' & Hin & Hgap);
    [apply Hmin|lia|done|].
  destruct (history_lookup P N doc column D1 Dn (Z.to_nat (d' - D1)) H Hcol Hmin Hmax)
    as (c' & r' & Hc' & Hr' & Hrec'); [lia|].
  destruct (history_lookup P N doc column D1 Dn (Z.to_nat (d - D1)) H Hcol Hmin Hmax)
    as (c & r & Hc & Hr & Hrec); [lia|].
  rewrite Z2Nat.id in Hc', Hrec', Hc, Hrec by lia.
  replace (D1 + (d' - D1)) with d' in * by lia.
  replace (D1 + (d - D1)) with d in * by lia.
  exists d', r, r'. split_and!; [lia|lia|done|done|done|done|..].
  - by apply day_record_Ok in Hrec' as [-> _].
  - by apply day_record_Ok in Hrec as [-> _].
  - assert (c = c') as ->; [|by eapply day_record_same_cells].
    destruct (ffill_from_gap nan_cells (calendar P D1 Dn)
                (Z.to_nat (d' - D1)) (Z.to_nat (d - d')) d' c' Hc')
      with (j := Z.to_nat (d - D1)) as [dd Hdd]; [|lia|].
    + intros j Hj. exists (D1 + Z.of_nat j).
      apply on_calendar_absent; [lia|]. apply Hgap. lia.
    + unfold ffill in Hc. congruence.
Qed.

Lemma on_calendar_lookup_inv P D1 Dn (i : nat) d c :
  calendar P D1 Dn !! i = Some (d, c) → d = D1 + Z.of_nat i ∧ Z.of_nat i ≤ Dn - D1.
Proof.
  intros H.
  assert ((calendar P D1 Dn).*1 !! i = Some d) as Hd
    by (by rewrite list_lookup_fmap, H).
  rewrite on_calendar_fst in Hd. apply lookup_seqZ in Hd. lia.
Qed.

Lemma record_headlines P N doc column D1 Dn (i : nat) r :
  run P N = Ok doc → column_of N = Ok column →
  is_min D1 (valid P) → is_max Dn (valid P) →
  Doc.history doc !! i = Some r →
  Z.of_nat i ≤ Dn - D1
  ∧ Doc.date r = Calendar.strftime_ymd (D1 + Z.of_nat i)
  ∧ Doc.news_headlines r
    = headline_of <$> filter (λ g, date_only g = D1 + Z.of_nat i)
                        (news_sorted N column).
Proof.
  intros H Hcol Hmin Hmax Hr.
  destruct (aggregate_Ok _ _ _ _ _ _ H Hcol Hmin Hmax) as [_ Hh].
  destruct (for_each_lookup_r _ _ _ _ _ Hh Hr) as ([d c] & Hx & Hrec).
  apply ffill_from_lookup_r in Hx as [c0 Hx].
  apply on_calendar_lookup_inv in Hx as [-> Hi].
  apply day_record_Ok in Hrec as (Hdate & Hnews & _).
  split_and!; [done..|].
  rewrite Hnews. apply groupby_date_only_lookup.
Qed.

Lemma news_sorted_day N column d :
  headline_of <$> filter (λ g, date_only g = d) (news_sorted N column)
  ≡ₚ headline_of <$> filter (λ g, date_only g = d) (dropna N column).
Proof. unfold news_sorted. by rewrite sort_values_perm. Qed.

Lemma kept_emitted P N doc column D1 Dn g :
  run P N = Ok doc → column_of N = Ok column →
  is_min D1 (valid P) → is_max Dn (valid P) →
  g ∈ dropna N column → D1 ≤ date_only g ≤ Dn →
  ∃ r, Doc.history doc !! Z.to_nat (date_only g - D1) = Some r
     ∧ Doc.date r = Calendar.strftime_ymd (date_only g)
     ∧ headline_of g ∈ Doc.news_headlines r.
Proof.
  intros H Hcol Hmin Hmax Hg Hd.
  destruct (history_lookup P N doc column D1 Dn (Z.to_nat (date_only g - D1))
              H Hcol Hmin Hmax) as (c & r & _ & Hr & _); [lia|].
  destruct (record_headlines _ _ _ _ _ _ _ _ H Hcol Hmin Hmax Hr)
    as (_ & Hdate & Hnews).
  rewrite Z2Nat.id in Hdate, Hnews by lia.
  replace (D1 + (date_only g - D1)) with (date_only g) in * by lia.
  exists r. split_and!; [done..|].
  rewrite Hnews, news_sorted_day.
  apply list_elem_of_fmap. exists g. split; [done|].
  by apply list_elem_of_filter.
Qed.

Lemma record_kept P N doc column D1 Dn (i : nat) r :
  run P N = Ok doc → column_of N = Ok column →
  is_min D1 (valid P) → is_max Dn (valid P) →
  Doc.history doc !! i = Some r →
  Doc.news_headlines r
  ≡ₚ headline_of <$> filter (λ g, date_only g = D1 + Z.of_nat i) (dropna N column).
Proof.
  intros H Hcol Hmin Hmax Hr.
  destruct (record_headlines _ _ _ _ _ _ _ _ H Hcol Hmin Hmax Hr) as (_ & _ & ->).
  apply news_sorted_day.
Qed.

(** The surviving rows around a row the format refuses. *)
Lemma kept_split pre r post column :
  to_datetime_tz (Date r) = Ok None →
  let N := pre ++ r :: post in
  column_of N = Ok column →
  ∃ values,
    to_datetime_any (fallback_cells to_datetime_tz N) = Ok values
    ∧ dropna N column
      = dropna pre (take (length pre) column)
        ++ match default None
                   (values !! length (fallback_cells to_datetime_tz pre)) with
           | Some t => [news_line r t]
           | None => []
           end
        ++ dropna post (drop (S (length pre)) column).
Proof.
  intros Hr N Hcol.
  destruct (parsed_split to_datetime_tz to_datetime_any pre r post column Hr Hcol)
    as (values & A & B & Hv & Hlen & ->).
  exists values. split; [done|].
  set (dv := default None _).
  assert (take (length pre) (A ++ dv :: B) = A) as ->
    by (by rewrite take_app_length').
  assert (drop (S (length pre)) (A ++ dv :: B) = B) as ->.
  { rewrite cons_middle, app_assoc. apply drop_app_length'.
    rewrite length_app. simpl. lia. }
  subst N. rewrite (cons_middle r), (cons_middle dv).
  rewrite !dropna_app by done.
  do 2 f_equal. unfold dropna. simpl. by destruct dv.
Qed.



(** A row the format reads is in the record of its UTC date when that date
    lies in the calendar. *)
Lemma first_pass_emitted P N doc D1 Dn r t :
  run P N = Ok doc →
  is_min D1 (valid P) → is_max Dn (valid P) →
  r ∈ N → to_datetime_tz (Date r) = Ok (Some t) →
  D1 ≤ Calendar.date_of t ≤ Dn →
  ∃ rec, Doc.history doc !! Z.to_nat (Calendar.date_of t - D1) = Some rec
    ∧ Doc.date rec = Calendar.strftime_ymd (Calendar.date_of t)
    ∧ {| Doc.time := Calendar.strftime_hms t;
         Doc.headline := Article_title r |} ∈ Doc.news_headlines rec.
Proof.
  intros H Hmin Hmax Hr Ht Hd.
  destruct (aggregate_parsed _ _ _ H) as [column Hcol].
  apply list_elem_of_lookup in Hr as [i Hi].
  apply (kept_emitted P N doc column D1 Dn (news_line r t)); [done..| |done].
  eapply dropna_elem; [done|]. by eapply parsed_first_pass.
Qed.

End AggregateFacts.

(** ** The example of the EST headline *)


(** ** The call on the files *)

Lemma news_rows_columns N : news_rows (map Date N) (map Article_title N) = N.
Proof.
  unfold news_rows. induction N as [|[d a] t IH]; [done|].
  simpl. by rewrite IH.
Qed.

(** The daily prices and the parsed column depend on the parses through
    the cells of the tables only. *)
Lemma price_daily_ext ymd ymd' P :
  Forall (λ r, ymd (date r) = ymd' (date r)) P →
  price_daily ymd P = price_daily ymd' P.
Proof.
  intros H. unfold price_daily.
  replace (map (λ r, (ymd' (date r), cells r)) P)
    with (map (λ r, (ymd (date r), cells r)) P); [done|].
  apply map_ext_in. intros r Hr. rewrite Forall_forall in H.
  by rewrite (H r (proj2 (list_elem_of_In _ _) Hr)).
Qed.

Lemma fallback_cells_ext tz tz' N :
  Forall (λ r, tz (Date r) = tz' (Date r)) N →
  fallback_cells tz N = fallback_cells tz' N.
Proof.
  unfold fallback_cells. induction 1 as [|r t Hr _ IH]; [done|].
  rewrite !filter_cons, Hr.
  destruct (decide (tz' (Date r) = Ok None)); [|done].
  rewrite !fmap_cons. by f_equal.
Qed.

Lemma parsed_ext tz tz' any any' N :
  Forall (λ r, tz (Date r) = tz' (Date r)) N →
  any (fallback_cells tz N) = any' (fallback_cells tz N) →
  parsed tz any (map Date N) = parsed tz' any' (map Date N).
Proof.
  intros Htz Hany.
  assert (for_each tz (map Date N) = for_each tz' (map Date N)) as Hfirst.
  { clear Hany. induction Htz as [|r t Hr _ IH]; [done|].
    simpl. by rewrite Hr, IH. }
  destruct (for_each tz (map Date N)) as [first|e] eqn:Hf.
  2:{ unfold parsed. by rewrite Hf, <- Hfirst. }
  symmetry in Hfirst.
  apply for_each_first_pass in Hf, Hfirst.
  destruct (decide (Exists (λ r, tz (Date r) = Ok None) N)) as [Hex|Hex].
  - rewrite (parsed_refused tz any N first Hf Hex).
    rewrite (parsed_refused tz' any' N first Hfirst).
    + by rewrite <- (fallback_cells_ext tz tz' N Htz), Hany.
    + apply Exists_exists in Hex as (r & Hin & Hr). apply Exists_exists.
      exists r. split; [done|]. rewrite Forall_forall in Htz.
      by rewrite <- (Htz r Hin).
  - rewrite (parsed_none_refused tz any N first Hf Hex).
    rewrite (parsed_none_refused tz' any' N first Hfirst); [done|].
    intros Hex'. apply Hex.
    apply Exists_exists in Hex' as (r & Hin & Hr). apply Exists_exists.
    exists r. split; [done|]. rewrite Forall_forall in Htz.
    by rewrite (Htz r Hin).
Qed.

Lemma aggregate_ext ymd ymd' tz tz' any any' P N :
  Forall (λ r, ymd (date r) = ymd' (date r)) P →
  Forall (λ r, tz (Date r) = tz' (Date r)) N →
  any (fallback_cells tz N) = any' (fallback_cells tz N) →
  aggregate ymd tz any P N = aggregate ymd' tz' any' P N.
Proof.
  intros Hymd Htz Hany. unfold aggregate.
  by rewrite (price_daily_ext ymd ymd' P Hymd), (parsed_ext tz tz' any any' N Htz Hany).
Qed.

Section FileFacts.

Variable Content : Type.
Variable Frame : Type.
Variable read_csv : Content → option Frame.
Variable price_columns : Frame → option (list PriceRow).
Variable news_Date : Frame → option (list string).
Variable news_Article_title : Frame → option (list string).
Variable to_datetime_ymd : Z → string → option Z.
Variable to_datetime_tz : Z → string → result (option Z).
Variable to_datetime_any : Z → list string → result (list (option Z)).
Variable json_dump : Doc.Document → Content.

Local Abbreviation call :=
  (aggregate_for_symbol Content Frame read_csv price_columns
     news_Date news_Article_title
     to_datetime_ymd to_datetime_tz to_datetime_any json_dump).
Local Abbreviation run now :=
  (aggregate (to_datetime_ymd now) (to_datetime_tz now) (to_datetime_any now)).

Local Abbreviation price_table := (price_table_of read_csv price_columns).
Local Abbreviation news_table :=
  (news_table_of read_csv news_Date news_Article_title).

Ltac open_call :=
  cbv [aggregate_for_symbol pd_read_csv read_file pure write_file mbind io_bind];
  repeat match goal with
  | |- context [or_else ?p (?a ++ upper ?s ++ "_price.csv")%string] =>
      change (or_else p (a ++ upper s ++ "_price.csv")%string) with (price_path s p)
  | |- context [or_else ?p (?a ++ upper ?s ++ "_headlines.csv")%string] =>
      change (or_else p (a ++ upper s ++ "_headlines.csv")%string) with (news_path s p)
  | |- context [or_else ?p (?a ++ upper ?s ++ "_aggregated.json")%string] =>
      change (or_else p (a ++ upper s ++ "_aggregated.json")%string) with (out_path s p)
  end.

Lemma call_loaded now symbol price_csv news_csv out_json fs P N :
  price_table fs (price_path symbol price_csv) P →
  news_table fs (news_path symbol news_csv) N →
  call now symbol price_csv news_csv out_json fs
  = match run now P N with
    | Ok doc => (Ok (), <[out_path symbol out_json := json_dump doc]> fs)
    | Raise e => (Raise e, fs)
    end.
Proof.
  intros (c & pf & Hc & Hpf & HP) (c' & nf & Hc' & Hnf & Hdates & Htitles).
  open_call. rewrite Hc. simpl. rewrite Hpf. simpl. rewrite Hc'. simpl.
  rewrite Hnf. simpl. rewrite HP. simpl.
  unfold aggregate.
  destruct (price_daily (to_datetime_ymd now) P) as [daily|e]; [|done].
  simpl. rewrite Hdates. simpl.
  destruct (parsed _ _ (map Date N)) as [column|e]; [|done].
  simpl. rewrite Htitles. simpl. rewrite news_rows_columns.
  by destruct (combine daily N column).
Qed.

(** A call that succeeds has written a document. *)
Lemma call_Ok now symbol price_csv news_csv out_json fs fs1 :
  call now symbol price_csv news_csv out_json fs = (Ok (), fs1) →
  ∃ doc, fs1 = <[out_path symbol out_json := json_dump doc]> fs.
Proof.
  open_call.
  destruct (fs !! price_path symbol price_csv) as [c|] eqn:Hc; [|done]. simpl.
  destruct (read_csv c) as [pf|] eqn:Hpf; [|done]. simpl.
  destruct (fs !! news_path symbol news_csv) as [c'|] eqn:Hc'; [|done]. simpl.
  destruct (read_csv c') as [nf|] eqn:Hnf; [|done]. simpl.
  destruct (price_columns pf) as [P|] eqn:HP; [|done]. simpl.
  destruct (price_daily (to_datetime_ymd now) P) as [daily|] eqn:Hd; [|done]. simpl.
  destruct (news_Date nf) as [dates|] eqn:Hdates; [|done]. simpl.
  destruct (parsed _ _ dates) as [column|] eqn:Hcol; [|done]. simpl.
  destruct (news_Article_title nf) as [titles|] eqn:Htitles; [|done]. simpl.
  destruct (combine daily _ column) as [doc|] eqn:Hdoc; [|done].
  intros [= <-]. by exists doc.
Qed.

(** A call whose price table has no daily calendar ends with an exception
    and leaves the files as they are, whatever the headline file holds. *)
Lemma call_price_raises now symbol price_csv news_csv out_json fs P e0 :
  price_table fs (price_path symbol price_csv) P →
  price_daily (to_datetime_ymd now) P = Raise e0 →
  ∃ e, call now symbol price_csv news_csv out_json fs = (Raise e, fs).
Proof.
  intros (c & pf & Hc & Hpf & HP) Hd. open_call.
  rewrite Hc. simpl. rewrite Hpf. simpl.
  destruct (fs !! news_path symbol news_csv) as [c'|]; [|by eexists]. simpl.
  destruct (read_csv c') as [nf|]; [|by eexists]. simpl.
  rewrite HP. simpl. rewrite Hd. by eexists.
Qed.

(** C6: a call whose price table has no row with a date the format reads
    ends with an exception, and the files are as they were: no document is
    written. *)
Theorem no_valid_price_date now symbol price_csv news_csv out_json fs P :
  price_table fs (price_path symbol price_csv) P →
  Forall (λ r, to_datetime_ymd now (date r) = None) P →
  ∃ e, call now symbol price_csv news_csv out_json fs = (Raise e, fs).
Proof.
  intros HP Hnone.
  apply (call_price_raises _ _ _ _ _ _ P ValueError); [done|].
  by apply price_daily_no_valid, valid_dates_none.
Qed.

(** C7 (amended): two calls with the same arguments, on files that agree
    on the two input files and at two readings of the clock at which the
    parses read the cells of the two tables alike: when one writes the
    document, the other does, and writes the same text. *)
Theorem same_inputs_same_output
    now now' symbol price_csv news_csv out_json fs fs' fs1 P N :
  price_table fs (price_path symbol price_csv) P →
  news_table fs (news_path symbol news_csv) N →
  fs' !! price_path symbol price_csv = fs !! price_path symbol price_csv →
  fs' !! news_path symbol news_csv = fs !! news_path symbol news_csv →
  read_alike to_datetime_ymd to_datetime_tz to_datetime_any now now' P N →
  call now symbol price_csv news_csv out_json fs = (Ok (), fs1) →
  ∃ text fs1',
    call now' symbol price_csv news_csv out_json fs' = (Ok (), fs1')
    ∧ fs1 !! out_path symbol out_json = Some text
    ∧ fs1' !! out_path symbol out_json = Some text.
Proof.
  intros HP HN Hp Hn (Hymd & Htz & Hany) H.
  rewrite (call_loaded _ _ _ _ _ fs P N HP HN) in H.
  destruct (run now P N) as [doc|e] eqn:Hrun; [|done]. injection H as <-.
  exists (json_dump doc), (<[out_path symbol out_json := json_dump doc]> fs').
  split_and!; [|apply lookup_insert_eq..].
  rewrite (call_loaded _ _ _ _ _ fs' P N).
  - by rewrite <- (aggregate_ext _ _ _ _ _ _ P N Hymd Htz Hany), Hrun.
  - destruct HP as (c & pf & Hc & ?). exists c, pf. by rewrite Hp.
  - destruct HN as (c & nf & Hc & ?). exists c, nf. by rewrite Hn.
Qed.

(** C9: a call whose price table has two rows with the same parsed date
    ends with an exception, and the files are as they were. *)
Theorem duplicate_price_date now symbol price_csv news_csv out_json fs l1 a l2 b l3 d :
  price_table fs (price_path symbol price_csv) (l1 ++ a :: l2 ++ b :: l3) →
  to_datetime_ymd now (date a) = Some d →
  to_datetime_ymd now (date b) = Some d →
  ∃ e, call now symbol price_csv news_csv out_json fs = (Raise e, fs).
Proof.
  intros HP Ha Hb.
  apply (call_price_raises _ _ _ _ _ _ _ ValueError HP).
  apply price_daily_duplicate, indexed_duplicate. congruence.
Qed.

(** C10: [aggregate_for_aapl] is [aggregate_for_symbol] on the symbol
    [AAPL]: on every file system, at every reading of the clock and for
    all three paths, the same exception or the same files after the
    call. *)
Theorem aapl_is_symbol_AAPL now price_csv news_csv out_json fs :
  aggregate_for_aapl Content Frame read_csv price_columns
    news_Date news_Article_title
    to_datetime_ymd to_datetime_tz to_datetime_any json_dump now
    price_csv news_csv out_json fs
  = aggregate_for_symbol Content Frame read_csv price_columns
      news_Date news_Article_title
      to_datetime_ymd to_datetime_tz to_datetime_any json_dump now
      "AAPL"%string price_csv news_csv out_json fs.
Proof. reflexivity. Qed.

End FileFacts.

(** ** Examples *)

Lemma is_min_check d l :
  bool_decide (d ∈ l) && forallb (Z.leb d) l = true → is_min d l.
Proof.
  intros H. apply andb_true_iff in H as [Hin Hall].
  apply bool_decide_eq_true in Hin. split; [done|].
  intros x Hx. rewrite forallb_forall in Hall.
  apply Z.leb_le, Hall. by apply list_elem_of_In.
Qed.

Lemma is_max_check d l :
  bool_decide (d ∈ l) && forallb (Z.geb d) l = true → is_max d l.
Proof.
  intros H. apply andb_true_iff in H as [Hin Hall].
  apply bool_decide_eq_true in Hin. split; [done|].
  intros x Hx. rewrite forallb_forall in Hall.
  apply Z.ge_le, Z.geb_ge, Hall. by apply list_elem_of_In.
Qed.

Example aggregate_jan : Sample.aggregate Sample.prices_jan Sample.news_jan = Ok Sample.doc_jan.
Proof. vm_compute. reflexivity. Qed.

Example parsed_jan :
  parsed Sample.to_datetime_tz Sample.to_datetime_any (map Date Sample.news_jan)
  = Ok Sample.column_jan.
Proof. vm_compute. reflexivity. Qed.

(** The example of the spec: two price days around a gap, no headline. *)
Example aggregate_no_news :
  Sample.aggregate Sample.prices_jan []
  = Ok {| Doc.history :=
            [ Sample.day "2023-01-01" 10 9 9.5 100 [];
              Sample.day "2023-01-02" 10 9 9.5 100 [];
              Sample.day "2023-01-03" 12 11 11.5 200 [] ] |}.
Proof. vm_compute. reflexivity. Qed.

Example strftime_ymd_epoch : Calendar.strftime_ymd 0 = "1970-01-01"%string.
Proof. reflexivity. Qed.

Example strftime_ymd_bounds :
  Calendar.strftime_ymd Calendar.min_day = "1677-09-22"%string
  ∧ Calendar.strftime_ymd Calendar.max_day = "2262-04-11"%string.
Proof. split; reflexivity. Qed.

Example strptime_ymd_2023 : Calendar.strptime_ymd "2023-01-03" = Some 19360.
Proof. reflexivity. Qed.

Example strptime_ymd_feb30 : Calendar.strptime_ymd "2023-02-30" = None.
Proof. reflexivity. Qed.

Example int_cuts :
  int (Float64 9.5) = Ok 9 ∧ int (Float64 (-9.5)) = Ok (-9)
  ∧ int (Float64 nan) = Raise ValueError
  ∧ int (Float64 infinity) = Raise OverflowError.
Proof. split_and!; reflexivity. Qed.

(** An integer volume beyond 2^53 is kept as it is, and is another number
    once its column is [float64]. *)
Example int_keeps_int64 :
  int (Int64 9007199254740993) = Ok 9007199254740993
  ∧ int (astype_float64 (Int64 9007199254740993)) = Ok 9007199254740992.
Proof. split; vm_compute; reflexivity. Qed.

(** The zone of the examples skips 02:30 on 2023-03-12. *)
Example skipped_hour :
  Sample.to_datetime_tz (Date Sample.row_skipped) = Raise NonExistentTimeError.
Proof. vm_compute. reflexivity. Qed.

Lemma min_jan : is_min 19358 (valid_dates Calendar.strptime_ymd Sample.prices_jan).
Proof. by apply is_min_check. Qed.

Lemma max_jan : is_max 19360 (valid_dates Calendar.strptime_ymd Sample.prices_jan).
Proof. by apply is_max_check. Qed.


(** C2 on the tables of January: 2023-01-02 has no row and repeats
    2023-01-01. *)
Lemma forward_fill_jan :
  19358 ≤ 19359 ≤ 19360
  ∧ (19359 ∉ valid_dates Calendar.strptime_ymd Sample.prices_jan)
  ∧ ∃ d' r r',
      19358 ≤ d' < 19359
      ∧ d' ∈ valid_dates Calendar.strptime_ymd Sample.prices_jan
      ∧ (∀ x, d' < x ≤ 19359 → x ∉ valid_dates Calendar.strptime_ymd Sample.prices_jan)
      ∧ Doc.history Sample.doc_jan !! Z.to_nat (d' - 19358) = Some r'
      ∧ Doc.history Sample.doc_jan !! Z.to_nat (19359 - 19358) = Some r
      ∧ Doc.date r' = Calendar.strftime_ymd d'
      ∧ Doc.date r = Calendar.strftime_ymd 19359
      ∧ Doc.market_data r = Doc.market_data r'.
Proof.
  assert (19358 ≤ 19359 ≤ 19360) as Hd by lia.
  assert (19359 ∉ valid_dates Calendar.strptime_ymd Sample.prices_jan) as Hout
    by compute_done.
  split_and!; [lia|lia|exact Hout|].
  exact (forward_fill _ _ _ _ _ _ _ _ _ aggregate_jan min_jan max_jan Hd Hout).
Defined.






(** C6 on a price file whose two dates do not parse, for the symbol [aapl]
    and the default paths. *)
Lemma no_valid_price_date_sample :
  price_table_of Sample.read_csv Sample.price_columns
    (Sample.files Sample.prices_none) (price_path "aapl" None) Sample.prices_none
  ∧ Forall (λ r, Calendar.strptime_ymd (date r) = None) Sample.prices_none
  ∧ ∃ e, Sample.aggregate_for_symbol "aapl" None None None
           (Sample.files Sample.prices_none)
         = (Raise e, Sample.files Sample.prices_none).
Proof.
  assert (price_table_of Sample.read_csv Sample.price_columns
            (Sample.files Sample.prices_none) (price_path "aapl" None)
            Sample.prices_none) as Htable.
  { exists (Sample.CsvFile (Sample.PriceTable Sample.prices_none)),
      (Sample.PriceTable Sample.prices_none).
    split_and!; [vm_compute; reflexivity|reflexivity..]. }
  assert (Forall (λ r, Calendar.strptime_ymd (date r) = None) Sample.prices_none)
    as Hnone by (repeat constructor).
  split_and!; [exact Htable|exact Hnone|].
  exact (no_valid_price_date _ _ _ _ Sample.news_Date Sample.news_Article_title
           (λ _, Calendar.strptime_ymd) (λ _, Sample.to_datetime_tz)
           Sample.to_datetime_any_at Sample.JsonFile Sample.clock
           "aapl" None None None _ _ Htable Hnone).
Defined.

Lemma price_table_jan fs :
  fs !! price_path "AAPL" None
  = Some (Sample.CsvFile (Sample.PriceTable Sample.prices_jan)) →
  price_table_of Sample.read_csv Sample.price_columns fs
    (price_path "AAPL" None) Sample.prices_jan.
Proof. intros H. by eexists _, _. Qed.

Lemma news_table_sample fs N :
  fs !! news_path "AAPL" None = Some (Sample.CsvFile (Sample.NewsTable N)) →
  news_table_of Sample.read_csv Sample.news_Date Sample.news_Article_title fs
    (news_path "AAPL" None) N.
Proof. intros H. by eexists _, _. Qed.

(** C7 on the files of January: the call is made again, a second later, on
    the files it left, and writes the same text again. *)
Lemma same_inputs_same_output_jan :
  let fs := Sample.files Sample.prices_jan in
  let fs1 := <["out/aapl.json" := Sample.JsonFile Sample.doc_jan]> fs in
  let now := Sample.moment 19359 36000 in
  let now' := Sample.moment 19359 36001 in
  fs1 !! price_path "AAPL" None = fs !! price_path "AAPL" None
  ∧ fs1 !! news_path "AAPL" None = fs !! news_path "AAPL" None
  ∧ read_alike (λ _, Calendar.strptime_ymd) (λ _, Sample.to_datetime_tz)
      Sample.to_datetime_any_at now now' Sample.prices_jan Sample.news_jan
  ∧ Sample.aggregate_for_symbol_at now
      "AAPL" None None (Some "out/aapl.json"%string) fs
    = (Ok (), fs1)
  ∧ ∃ text fs2,
      Sample.aggregate_for_symbol_at now'
        "AAPL" None None (Some "out/aapl.json"%string) fs1
      = (Ok (), fs2)
      ∧ fs1 !! out_path "AAPL" (Some "out/aapl.json"%string) = Some text
      ∧ fs2 !! out_path "AAPL" (Some "out/aapl.json"%string) = Some text.
Proof.
  intros fs fs1 now now'.
  assert (fs1 !! price_path "AAPL" None = fs !! price_path "AAPL" None) as Hp
    by (vm_compute; reflexivity).
  assert (fs1 !! news_path "AAPL" None = fs !! news_path "AAPL" None) as Hn
    by (vm_compute; reflexivity).
  assert (read_alike (λ _, Calendar.strptime_ymd) (λ _, Sample.to_datetime_tz)
            Sample.to_datetime_any_at now now' Sample.prices_jan Sample.news_jan)
    as Halike by (split_and!; [repeat constructor..|vm_compute; reflexivity]).
  assert (Sample.aggregate_for_symbol_at now
            "AAPL" None None (Some "out/aapl.json"%string) fs
          = (Ok (), fs1)) as Hcall by (vm_compute; reflexivity).
  split_and!; [exact Hp|exact Hn|exact Halike|exact Hcall|].
  refine (same_inputs_same_output _ _ _ _ _ _ _ _ _ _ now now' _ _ _ _ fs fs1 fs1
            Sample.prices_jan Sample.news_jan _ _ Hp Hn Halike Hcall).
  - apply price_table_jan. vm_compute. reflexivity.
  - apply news_table_sample. vm_compute. reflexivity.
Defined.

(** C7 as stated fails: the one headline is dated [now]; the call made at
    10:00:00 on 2023-01-02 writes it with the time [10:00:00], and the call
    made again a second later, on the files the first call left, with the
    time [10:00:01]. *)
Lemma now_headline_read_twice :
  Sample.aggregate_for_symbol_at (Sample.moment 19359 36000)
    "AAPL" None None None
    (Sample.files_of Sample.prices_jan [Sample.row_now])
  = (Ok (),
     <[out_path "AAPL" None := Sample.JsonFile (Sample.doc_now "10:00:00")]>
       (Sample.files_of Sample.prices_jan [Sample.row_now]))
  ∧ Sample.aggregate_for_symbol_at (Sample.moment 19359 36001)
      "AAPL" None None None
      (<[out_path "AAPL" None := Sample.JsonFile (Sample.doc_now "10:00:00")]>
         (Sample.files_of Sample.prices_jan [Sample.row_now]))
    = (Ok (),
       <[out_path "AAPL" None := Sample.JsonFile (Sample.doc_now "10:00:01")]>
         (Sample.files_of Sample.prices_jan [Sample.row_now]))
  ∧ Sample.JsonFile (Sample.doc_now "10:00:00")
    ≠ Sample.JsonFile (Sample.doc_now "10:00:01").
Proof. split_and!; [vm_compute; reflexivity..|discriminate]. Qed.

(** C8 on a price table with one good date and two dates that do not
    parse: the call raises [ValueError] and writes nothing, where one such
    row alone is dropped and the document is that of the good row. *)
Lemma two_unparseable_dates_raise :
  Sample.aggregate Sample.prices_two_bad [] = Raise ValueError
  ∧ Sample.aggregate Sample.prices_one_bad [] = Ok Sample.doc_one
  ∧ Sample.aggregate Sample.prices_one [] = Ok Sample.doc_one.
Proof. split_and!; vm_compute; reflexivity. Qed.

(** C9 on a price file with 2023-01-01 twice. *)
Lemma duplicate_price_date_sample :
  price_table_of Sample.read_csv Sample.price_columns
    (Sample.files Sample.prices_twice) (price_path "AAPL" None) Sample.prices_twice
  ∧ Calendar.strptime_ymd "2023-01-01" = Some 19358
  ∧ ∃ e, Sample.aggregate_for_symbol "AAPL" None None None
           (Sample.files Sample.prices_twice)
         = (Raise e, Sample.files Sample.prices_twice).
Proof.
  assert (price_table_of Sample.read_csv Sample.price_columns
            (Sample.files Sample.prices_twice) (price_path "AAPL" None)
            Sample.prices_twice) as Htable.
  { exists (Sample.CsvFile (Sample.PriceTable Sample.prices_twice)),
      (Sample.PriceTable Sample.prices_twice).
    split_and!; [vm_compute; reflexivity|reflexivity..]. }
  assert (Calendar.strptime_ymd "2023-01-01" = Some 19358) as Hd by reflexivity.
  split_and!; [exact Htable|exact Hd|].
  exact (duplicate_price_date _ _ _ _ Sample.news_Date Sample.news_Article_title
           (λ _, Calendar.strptime_ymd) (λ _, Sample.to_datetime_tz)
           Sample.to_datetime_any_at Sample.JsonFile Sample.clock
           "AAPL" None None None _
           [] (Sample.price "2023-01-01" 10 9 9.5 (Int64 100))
           [Sample.price "2023-01-02" 11 10 10.5 (Int64 150)]
           (Sample.price "2023-01-01" 12 11 11.5 (Int64 200)) [] 19358
           Htable Hd Hd).
Defined.

(** X1 on the tables of January. *)
Lemma aggregate_total_jan :
  NoDup (indexed Calendar.strptime_ymd Sample.prices_jan).*1
  ∧ Forall (λ r, finite (volume (cells r))) Sample.prices_jan
  ∧ parsed Sample.to_datetime_tz Sample.to_datetime_any (map Date Sample.news_jan)
    = Ok Sample.column_jan
  ∧ ∃ doc, Sample.aggregate Sample.prices_jan Sample.news_jan = Ok doc.
Proof.
  assert (NoDup (indexed Calendar.strptime_ymd Sample.prices_jan).*1) as Hnd
    by compute_done.
  assert (Forall (λ r, finite (volume (cells r))) Sample.prices_jan) as Hfin
    by (repeat constructor; eexists; vm_compute; reflexivity).
  split_and!; [exact Hnd|exact Hfin|exact parsed_jan|].
  exact (aggregate_total _ Sample.to_datetime_tz Sample.to_datetime_any
           _ Sample.news_jan _ _ _ min_jan max_jan Hnd Hfin parsed_jan).
Defined.

(** X2 on a price table with one date that does not parse. *)
Lemma unparseable_rows_dropped_sample :
  Sample.aggregate Sample.prices_one_bad Sample.news_feb = Ok Sample.doc_one
  ∧ filter (λ r, is_Some (Calendar.strptime_ymd (date r))) Sample.prices_one_bad
    = Sample.prices_one
  ∧ Sample.aggregate Sample.prices_one Sample.news_feb = Ok Sample.doc_one.
Proof.
  assert (Sample.aggregate Sample.prices_one_bad Sample.news_feb = Ok Sample.doc_one)
    as Hrun by (vm_compute; reflexivity).
  split_and!; [exact Hrun|reflexivity|].
  exact (unparseable_rows_dropped _ _ _ _ _ _ Hrun).
Defined.


(** * More of [aggregate_for_symbol] *)

(** ** The two tables *)

Lemma filter_split {A} (P Q R : A → Prop)
    `{∀ x, Decision (P x)} `{∀ x, Decision (Q x)} `{∀ x, Decision (R x)}
    (l : list A) :
  (∀ x, R x ↔ P x ∨ Q x) → (∀ x, P x → Q x → False) →
  filter P l ++ filter Q l ≡ₚ filter R l.
Proof.
  intros HR Hdisj. induction l as [|x l IH]; [done|].
  rewrite !filter_cons.
  destruct (decide (P x)) as [HP|HP], (decide (Q x)) as [HQ|HQ],
    (decide (R x)) as [HRx|HRx];
    try (exfalso; by eauto); try (exfalso; apply HRx, HR; by eauto);
    try (exfalso; apply HR in HRx as [?|?]; done).
  - simpl. by rewrite IH.
  - rewrite <- Permutation_middle. by rewrite IH.
  - done.
Qed.

Lemma filter_none {A} (P : A → Prop) `{∀ x, Decision (P x)} (l : list A) :
  (∀ x, ¬ P x) → filter P l = [].
Proof.
  intros HP. induction l as [|x l IH]; [done|].
  by rewrite filter_cons_False by apply HP.
Qed.

(** The lists of the days [a, a+1, ..] put end to end are the rows of these
    days. *)
Lemma concat_days {A} (f : NewsLine → A) (S : list NewsLine) a (n : nat) :
  concat ((λ d, f <$> filter (λ g, date_only g = d) S) <$> seqZ a (Z.of_nat n))
  ≡ₚ f <$> filter (λ g, a ≤ date_only g < a + Z.of_nat n) S.
Proof.
  revert a. induction n as [|n IH]; intros a.
  - simpl. rewrite filter_none; [done|]. intros g. lia.
  - rewrite Nat2Z.inj_succ, seqZ_cons by lia.
    replace (Z.pred (Z.succ (Z.of_nat n))) with (Z.of_nat n) by lia.
    rewrite fmap_cons. simpl. rewrite IH, <- fmap_app.
    apply fmap_Permutation.
    apply (filter_split _ _ (λ g, a ≤ date_only g < a + Z.succ (Z.of_nat n))).
    + intros g. lia.
    + intros g. lia.
Qed.

Lemma for_each_headlines nbd rows h :
  for_each (day_record nbd) rows = Ok h →
  Doc.news_headlines <$> h = (λ d, default [] (nbd !! d)) <$> rows.*1.
Proof.
  intros H. apply for_each_Ok in H.
  induction H as [|x y l l' Hxy _ IH]; [done|].
  rewrite !fmap_cons. f_equal; [|done].
  by apply day_record_Ok in Hxy as (_ & -> & _).
Qed.

Lemma for_each_day_record_prices nbd nbd' rows h :
  for_each (day_record nbd) rows = Ok h →
  ∃ h', for_each (day_record nbd') rows = Ok h'
    ∧ Doc.date <$> h' = Doc.date <$> h
    ∧ Doc.market_data <$> h' = Doc.market_data <$> h.
Proof.
  revert h. induction rows as [|[d c] t IH]; intros h H; simpl in H.
  - injection H as <-. by exists [].
  - apply bind_Ok in H as (y & Hy & H). apply bind_Ok in H as (ys & Hys & H).
    injection H as <-. destruct (IH ys Hys) as (h' & Hh' & Hd & Hm).
    assert (∃ y', day_record nbd' (d, c) = Ok y'
                  ∧ Doc.date y' = Doc.date y
                  ∧ Doc.market_data y' = Doc.market_data y) as (y' & Hy' & Hyd & Hym).
    { unfold day_record in *. apply bind_Ok in Hy as (v & Hv & Hy).
      injection Hy as <-. simpl in *. rewrite Hv. simpl. by eexists. }
    exists (y' :: h'). simpl. rewrite Hy'. simpl. rewrite Hh'. simpl.
    split; [done|]. split; f_equal; done.
Qed.

Lemma exists_is_max (l : list Z) x : x ∈ l → ∃ m, is_max m l.
Proof.
  destruct l as [|y t]; [by intros ?%elem_of_nil|].
  intros _. eexists. apply foldr_max_spec.
Qed.

Lemma exists_is_min (l : list Z) x : x ∈ l → ∃ m, is_min m l.
Proof.
  destruct l as [|y t]; [by intros ?%elem_of_nil|].
  intros _. eexists. apply foldr_min_spec.
Qed.

Section MoreAggregateFacts.

Variable to_datetime_ymd : string → option Z.
Variable to_datetime_tz : string → result (option Z).
Variable to_datetime_any : list string → result (list (option Z)).

Lemma aggregate_bounds P N doc :
  aggregate to_datetime_ymd to_datetime_tz to_datetime_any P N = Ok doc →
  ∃ D1 Dn, is_min D1 (valid_dates to_datetime_ymd P)
         ∧ is_max Dn (valid_dates to_datetime_ymd P).
Proof.
  unfold aggregate. intros H. apply bind_Ok in H as (daily & Hd & _).
  apply price_daily_Ok in Hd as (D1 & Dn & ? & ? & _). eauto.
Qed.

(** X4: a headline table whose dates are parsed (no cell raises) changes
    neither the dates nor the market data of the document, nor whether it
    is written. *)
Theorem headlines_leave_prices P N N' doc column' :
  aggregate to_datetime_ymd to_datetime_tz to_datetime_any P N = Ok doc →
  parsed to_datetime_tz to_datetime_any (map Date N') = Ok column' →
  ∃ doc',
    aggregate to_datetime_ymd to_datetime_tz to_datetime_any P N' = Ok doc'
    ∧ Doc.date <$> Doc.history doc' = Doc.date <$> Doc.history doc
    ∧ Doc.market_data <$> Doc.history doc' = Doc.market_data <$> Doc.history doc.
Proof.
  unfold aggregate. intros H Hcol'. apply bind_Ok in H as (daily & Hd & H).
  apply bind_Ok in H as (column & Hcol & H).
  rewrite Hd. simpl. rewrite Hcol'. simpl. unfold combine in *.
  apply bind_Ok in H as (h & Hh & H). injection H as <-.
  destruct (for_each_day_record_prices _ (news_by_date N' column') _ _ Hh)
    as (h' & Hh' & Hdates & Hdata).
  rewrite Hh'. simpl. by eexists.
Qed.

(** X5: when no headline row survives the parse (an empty headline table,
    or rows that both parses refuse), every record of the document has
    the empty list of headlines. *)
Theorem no_surviving_headline P N doc column :
  parsed to_datetime_tz to_datetime_any (map Date N) = Ok column →
  dropna N column = [] →
  aggregate to_datetime_ymd to_datetime_tz to_datetime_any P N = Ok doc →
  Forall (λ r, Doc.news_headlines r = []) (Doc.history doc).
Proof.
  intros Hcol Hkept H.
  destruct (aggregate_bounds _ _ _ H) as (D1 & Dn & Hmin & Hmax).
  apply Forall_lookup. intros i r Hr.
  pose proof (record_kept _ _ _ _ _ _ _ _ _ _ _ H Hcol Hmin Hmax Hr) as Hp.
  rewrite Hkept in Hp. by apply Permutation_nil_r in Hp.
Qed.


End MoreAggregateFacts.

(** ** The price table *)

Section MorePriceFacts.

Variable to_datetime_ymd : string → option Z.
Variable to_datetime_tz : string → result (option Z).
Variable to_datetime_any : list string → result (list (option Z)).

Lemma valid_dates_perm P P' :
  P ≡ₚ P' → valid_dates to_datetime_ymd P ≡ₚ valid_dates to_datetime_ymd P'.
Proof. intros Hp. unfold valid_dates. by rewrite Hp. Qed.

Lemma indexed_perm P P' :
  P ≡ₚ P' → indexed to_datetime_ymd P ≡ₚ indexed to_datetime_ymd P'.
Proof.
  intros Hp. unfold indexed. change (map ?f ?l) with (f <$> l). by rewrite Hp.
Qed.

Lemma price_daily_perm P P' :
  P ≡ₚ P' → price_daily to_datetime_ymd P = price_daily to_datetime_ymd P'.
Proof.
  intros Hp. pose proof (indexed_perm P P' Hp) as Hi.
  pose proof (valid_dates_perm P P' Hp) as Hv.
  destruct (decide (NoDup (indexed to_datetime_ymd P).*1)) as [Hnd|Hdup].
  - assert (NoDup (indexed to_datetime_ymd P').*1) as Hnd' by (by rewrite <- Hi).
    destruct (valid_dates to_datetime_ymd P) as [|x t] eqn:HP.
    + apply Permutation_nil in Hv.
      by rewrite !price_daily_no_valid.
    + destruct (exists_is_min (valid_dates to_datetime_ymd P) x) as [D1 Hmin];
        [rewrite HP; left|].
      destruct (exists_is_max (valid_dates to_datetime_ymd P) x) as [Dn Hmax];
        [rewrite HP; left|].
      rewrite <- HP in Hv.
      rewrite (price_daily_complete _ P D1 Dn Hmin Hmax Hnd).
      rewrite (price_daily_complete _ P' D1 Dn
                 (is_min_perm _ _ _ Hv Hmin) (is_max_perm _ _ _ Hv Hmax) Hnd').
      do 2 f_equal. unfold on_calendar. cbv zeta. by apply reindexed_perm.
  - assert (¬ NoDup (indexed to_datetime_ymd P').*1) as Hdup'
      by (by rewrite <- Hi).
    by rewrite !price_daily_duplicate.
Qed.

(** X7: the order of the rows of the price table does not matter: a table
    with the same rows in another order gives the same document, or the
    same exception. *)
Theorem price_rows_in_any_order P P' N :
  P ≡ₚ P' →
  aggregate to_datetime_ymd to_datetime_tz to_datetime_any P N
  = aggregate to_datetime_ymd to_datetime_tz to_datetime_any P' N.
Proof. intros Hp. unfold aggregate. by rewrite (price_daily_perm P P' Hp). Qed.

(** The first row of the daily table is the row of the first day. *)
Lemma on_calendar_first P D1 Dn c :
  is_min D1 (valid_dates to_datetime_ymd P) →
  is_max Dn (valid_dates to_datetime_ymd P) →
  NoDup (indexed to_datetime_ymd P).*1 →
  (Some D1, c) ∈ indexed to_datetime_ymd P →
  ∃ rows,
    ffill (on_calendar to_datetime_ymd P D1 Dn)
    = (D1, ffill_row nan_cells
             (retype (indexed to_datetime_ymd P) (seqZ D1 (Dn - D1 + 1)) c))
      :: rows.
Proof.
  intros Hmin Hmax Hnd Hin.
  assert (D1 ≤ Dn) as Hle by (apply Hmin, Hmax).
  pose proof (on_calendar_lookup to_datetime_ymd P D1 Dn 0 ltac:(lia)) as H0.
  rewrite Z.add_0_r, (loc_elem _ D1 c Hnd Hin) in H0.
  destruct (on_calendar to_datetime_ymd P D1 Dn) as [|row rows]; [done|].
  simpl in H0. injection H0 as ->. unfold ffill. simpl. by eexists.
Qed.

(** X8: a price table whose first day has no volume never gives a
    document: once the headline dates are parsed (a cell of theirs may
    raise before), the call raises [ValueError], for there is nothing to
    fill the cell from and [int] refuses it. *)
Theorem first_day_without_volume P N D1 c :
  is_min D1 (valid_dates to_datetime_ymd P) →
  NoDup (indexed to_datetime_ymd P).*1 →
  (Some D1, c) ∈ indexed to_datetime_ymd P →
  isna_volume (volume c) = true →
  aggregate to_datetime_ymd to_datetime_tz to_datetime_any P N
  = match parsed to_datetime_tz to_datetime_any (map Date N) with
    | Ok _ => Raise ValueError
    | Raise e => Raise e
    end.
Proof.
  intros Hmin Hnd Hin Hna.
  destruct (exists_is_max (valid_dates to_datetime_ymd P) D1) as [Dn Hmax];
    [apply Hmin|].
  unfold aggregate. rewrite (price_daily_complete _ P D1 Dn Hmin Hmax Hnd).
  simpl.
  destruct (parsed to_datetime_tz to_datetime_any (map Date N)) as [column|e];
    [|done].
  simpl. destruct (on_calendar_first P D1 Dn c Hmin Hmax Hnd Hin) as [rows ->].
  unfold combine. simpl.
  assert (day_record (news_by_date N column)
            (D1, ffill_row nan_cells
                   (retype (indexed to_datetime_ymd P) (seqZ D1 (Dn - D1 + 1)) c))
          = Raise ValueError) as ->; [|done].
  unfold day_record. simpl. rewrite (retype_volume_na _ _ _ Hna).
  unfold fill_volume. rewrite Hna. reflexivity.
Qed.


(** ** The headline table *)

(** X10: when the format refuses no [Date] cell, the parse with no format
    plays no part: the document, or the exception, is the same whatever it
    would return. *)
Theorem fallback_not_consulted any any' P N :
  Forall (λ r, to_datetime_tz (Date r) ≠ Ok None) N →
  aggregate to_datetime_ymd to_datetime_tz any P N
  = aggregate to_datetime_ymd to_datetime_tz any' P N.
Proof.
  intros HN. unfold aggregate.
  by rewrite (parsed_all_first_pass to_datetime_tz any any' N HN).
Qed.

End MorePriceFacts.

(** ** Paths *)

Lemma upper_ascii_idempotent c : upper_ascii (upper_ascii c) = upper_ascii c.
Proof. by destruct c as [[] [] [] [] [] [] [] []]. Qed.

Lemma upper_idempotent s : upper (upper s) = upper s.
Proof.
  induction s as [|c s IH]; [done|].
  simpl. by rewrite upper_ascii_idempotent, IH.
Qed.

Lemma or_else_given (p default : string) :
  p ≠ ""%string → or_else (Some p) default = p.
Proof.
  intros Hp. unfold or_else.
  destruct (String.eqb_spec p ""); [done|done].
Qed.

Lemma default_paths_differ symbol :
  price_path symbol None ≠ out_path symbol None
  ∧ news_path symbol None ≠ out_path symbol None
  ∧ price_path symbol None ≠ news_path symbol None.
Proof. by split_and!. Qed.

(** ** Files and exceptions *)

Section MoreFileFacts.

Variable Content : Type.
Variable Frame : Type.
Variable read_csv : Content → option Frame.
Variable price_columns : Frame → option (list PriceRow).
Variable news_Date : Frame → option (list string).
Variable news_Article_title : Frame → option (list string).
Variable to_datetime_ymd : Z → string → option Z.
Variable to_datetime_tz : Z → string → result (option Z).
Variable to_datetime_any : Z → list string → result (list (option Z)).
Variable json_dump : Doc.Document → Content.

Local Abbreviation call :=
  (aggregate_for_symbol Content Frame read_csv price_columns
     news_Date news_Article_title
     to_datetime_ymd to_datetime_tz to_datetime_any json_dump).

(** The file at [path] is there and [read_csv] reads it as [frame]. *)
Local Abbreviation reads := (λ (fs : gmap string Content) path (frame : Frame),
  ∃ c, fs !! path = Some c ∧ read_csv c = Some frame).

(** The call, statement by statement. *)
Lemma call_steps now symbol price_csv news_csv out_json fs :
  call now symbol price_csv news_csv out_json fs
  = match fs !! price_path symbol price_csv with
    | None => (Raise FileNotFoundError, fs)
    | Some c =>
    match read_csv c with
    | None => (Raise ParserError, fs)
    | Some pf =>
    match fs !! news_path symbol news_csv with
    | None => (Raise FileNotFoundError, fs)
    | Some c' =>
    match read_csv c' with
    | None => (Raise ParserError, fs)
    | Some nf =>
    match price_columns pf with
    | None => (Raise KeyError, fs)
    | Some P =>
    match price_daily (to_datetime_ymd now) P with
    | Raise e => (Raise e, fs)
    | Ok daily =>
    match news_Date nf with
    | None => (Raise KeyError, fs)
    | Some dates =>
    match parsed (to_datetime_tz now) (to_datetime_any now) dates with
    | Raise e => (Raise e, fs)
    | Ok column =>
    match news_Article_title nf with
    | None => (Raise KeyError, fs)
    | Some titles =>
    match combine daily (news_rows dates titles) column with
    | Raise e => (Raise e, fs)
    | Ok doc => (Ok (), <[out_path symbol out_json := json_dump doc]> fs)
    end end end end end end end end end end.
Proof.
  cbv [aggregate_for_symbol pd_read_csv read_file pure write_file mbind io_bind].
  change (or_else price_csv _) with (price_path symbol price_csv).
  change (or_else news_csv _) with (news_path symbol news_csv).
  change (or_else out_json _) with (out_path symbol out_json).
  destruct (fs !! price_path symbol price_csv) as [c|]; [|done]. simpl.
  destruct (read_csv c) as [pf|]; [|done]. simpl.
  destruct (fs !! news_path symbol news_csv) as [c'|]; [|done]. simpl.
  destruct (read_csv c') as [nf|]; [|done]. simpl.
  destruct (price_columns pf) as [P|]; [|done]. simpl.
  destruct (price_daily (to_datetime_ymd now) P) as [daily|]; [|done]. simpl.
  destruct (news_Date nf) as [dates|]; [|done]. simpl.
  destruct (parsed _ _ dates) as [column|]; [|done]. simpl.
  destruct (news_Article_title nf) as [titles|]; [|done]. simpl.
  by destruct (combine daily _ column).
Qed.

(** X11: a call that raises leaves every file as it was: the document is
    the last thing the script writes, and nothing else is written. *)
Theorem failed_call_keeps_files now symbol price_csv news_csv out_json fs fs' e :
  aggregate_for_symbol Content Frame read_csv price_columns
    news_Date news_Article_title
    to_datetime_ymd to_datetime_tz to_datetime_any json_dump now
    symbol price_csv news_csv out_json fs = (Raise e, fs') →
  fs' = fs.
Proof.
  rewrite call_steps. intros H.
  repeat (case_match; simplify_eq/=); done.
Qed.

(** X12: a call that succeeds writes the file at the output path and
    touches no other file; what the output path held before is lost. *)
Theorem call_writes_output_only now symbol price_csv news_csv out_json fs fs1 :
  aggregate_for_symbol Content Frame read_csv price_columns
    news_Date news_Article_title
    to_datetime_ymd to_datetime_tz to_datetime_any json_dump now
    symbol price_csv news_csv out_json fs = (Ok (), fs1) →
  (∃ doc, fs1 !! out_path symbol out_json = Some (json_dump doc))
  ∧ ∀ path, path ≠ out_path symbol out_json → fs1 !! path = fs !! path.
Proof.
  intros H. apply call_Ok in H as (doc & ->). split.
  - exists doc. apply lookup_insert_eq.
  - intros path Hne. by apply lookup_insert_ne.
Qed.

(** X13: the symbol counts in upper case only: a call with the symbol put
    in upper case is the same call. *)
Theorem symbol_case_insensitive now symbol price_csv news_csv out_json fs :
  aggregate_for_symbol Content Frame read_csv price_columns
    news_Date news_Article_title
    to_datetime_ymd to_datetime_tz to_datetime_any json_dump now
    (upper symbol) price_csv news_csv out_json fs
  = aggregate_for_symbol Content Frame read_csv price_columns
      news_Date news_Article_title
      to_datetime_ymd to_datetime_tz to_datetime_any json_dump now
      symbol price_csv news_csv out_json fs.
Proof. unfold aggregate_for_symbol. by rewrite upper_idempotent. Qed.

(** X14: when the three paths are given and none is the empty text, the
    symbol plays no part. *)
Theorem explicit_paths_ignore_symbol now symbol symbol' (p n o : string) fs :
  p ≠ ""%string → n ≠ ""%string → o ≠ ""%string →
  aggregate_for_symbol Content Frame read_csv price_columns
    news_Date news_Article_title
    to_datetime_ymd to_datetime_tz to_datetime_any json_dump now
    symbol (Some p) (Some n) (Some o) fs
  = aggregate_for_symbol Content Frame read_csv price_columns
      news_Date news_Article_title
      to_datetime_ymd to_datetime_tz to_datetime_any json_dump now
      symbol' (Some p) (Some n) (Some o) fs.
Proof.
  intros Hp Hn Ho. unfold aggregate_for_symbol. cbv zeta.
  by rewrite !or_else_given.
Qed.

(** X15: a missing input file raises [FileNotFoundError], whatever the
    tables hold: both files are read before a column is looked at.  (The
    headline file is only opened once the price file was read.) *)
Theorem missing_input_file now symbol price_csv news_csv out_json fs :
  fs !! price_path symbol price_csv = None
  ∨ ((∃ pf, reads fs (price_path symbol price_csv) pf)
     ∧ fs !! news_path symbol news_csv = None) →
  aggregate_for_symbol Content Frame read_csv price_columns
    news_Date news_Article_title
    to_datetime_ymd to_datetime_tz to_datetime_any json_dump now
    symbol price_csv news_csv out_json fs
  = (Raise FileNotFoundError, fs).
Proof.
  rewrite call_steps. intros [Hp|[(pf & c & Hc & Hpf) Hn]].
  - by rewrite Hp.
  - by rewrite Hc, Hpf, Hn.
Qed.

(** X16: a price table without one of its five columns raises [KeyError]
    once both files are read, whatever the headline file holds (lines 29
    and 30 come before any other step). *)
Theorem missing_price_column now symbol price_csv news_csv out_json fs pf nf :
  reads fs (price_path symbol price_csv) pf →
  reads fs (news_path symbol news_csv) nf →
  price_columns pf = None →
  aggregate_for_symbol Content Frame read_csv price_columns
    news_Date news_Article_title
    to_datetime_ymd to_datetime_tz to_datetime_any json_dump now
    symbol price_csv news_csv out_json fs
  = (Raise KeyError, fs).
Proof.
  intros (c & Hc & Hpf) (c' & Hc' & Hnf) HP.
  rewrite call_steps. by rewrite Hc, Hpf, Hc', Hnf, HP.
Qed.

(** X17: a headline table without its column [Date] or without its column
    [Article_title] never gives a document, and the exception is the first
    of: the one of the price steps (lines 29 to 40); [KeyError] when [Date]
    is absent (line 43); the one a cell of [Date] raises in the parse (line
    43); [KeyError] for the absent [Article_title] (line 56). *)
Theorem headline_columns_after_prices now symbol price_csv news_csv out_json fs P nf :
  price_table_of read_csv price_columns fs (price_path symbol price_csv) P →
  reads fs (news_path symbol news_csv) nf →
  news_Date nf = None ∨ news_Article_title nf = None →
  aggregate_for_symbol Content Frame read_csv price_columns
    news_Date news_Article_title
    to_datetime_ymd to_datetime_tz to_datetime_any json_dump now
    symbol price_csv news_csv out_json fs
  = (match price_daily (to_datetime_ymd now) P with
     | Raise e => Raise e
     | Ok _ =>
         match news_Date nf with
         | None => Raise KeyError
         | Some dates =>
             match parsed (to_datetime_tz now) (to_datetime_any now) dates with
             | Raise e => Raise e
             | Ok _ => Raise KeyError
             end
         end
     end, fs).
Proof.
  intros (c & pf & Hc & Hpf & HP) (c' & Hc' & Hnf) HN.
  rewrite call_steps. rewrite Hc, Hpf, Hc', Hnf, HP.
  destruct (price_daily (to_datetime_ymd now) P); [|done].
  destruct (news_Date nf) as [dates|]; [|done].
  destruct (parsed _ _ dates); [|done].
  destruct HN as [HN|HN]; [done|]. by rewrite HN.
Qed.

(** X18: once both files are read, a price table with no date that parses,
    or with a label twice in its index, raises [ValueError]. *)
Theorem calendar_errors_are_ValueError now symbol price_csv news_csv out_json fs P nf :
  price_table_of read_csv price_columns fs (price_path symbol price_csv) P →
  reads fs (news_path symbol news_csv) nf →
  valid_dates (to_datetime_ymd now) P = []
  ∨ ¬ NoDup (indexed (to_datetime_ymd now) P).*1 →
  aggregate_for_symbol Content Frame read_csv price_columns
    news_Date news_Article_title
    to_datetime_ymd to_datetime_tz to_datetime_any json_dump now
    symbol price_csv news_csv out_json fs
  = (Raise ValueError, fs).
Proof.
  intros (c & pf & Hc & Hpf & HP) (c' & Hc' & Hnf) Hbad.
  rewrite call_steps. rewrite Hc, Hpf, Hc', Hnf, HP.
  destruct Hbad as [Hnone|Hdup].
  - by rewrite price_daily_no_valid.
  - by rewrite price_daily_duplicate.
Qed.

(** X19: with the three default paths a call that succeeds leaves its two
    input files as they were; and the same call made again, at a reading
    of the clock at which the parses read the cells of the two tables as
    they did, changes nothing more. *)
Theorem default_paths_rerun now now' symbol fs fs1 P N :
  price_table_of read_csv price_columns fs (price_path symbol None) P →
  news_table_of read_csv news_Date news_Article_title fs
    (news_path symbol None) N →
  read_alike to_datetime_ymd to_datetime_tz to_datetime_any now now' P N →
  aggregate_for_symbol Content Frame read_csv price_columns
    news_Date news_Article_title
    to_datetime_ymd to_datetime_tz to_datetime_any json_dump now
    symbol None None None fs = (Ok (), fs1) →
  fs1 !! price_path symbol None = fs !! price_path symbol None
  ∧ fs1 !! news_path symbol None = fs !! news_path symbol None
  ∧ aggregate_for_symbol Content Frame read_csv price_columns
      news_Date news_Article_title
      to_datetime_ymd to_datetime_tz to_datetime_any json_dump now'
      symbol None None None fs1 = (Ok (), fs1).
Proof.
  intros HP HN (Hymd & Htz & Hany) H.
  destruct (default_paths_differ symbol) as (Hpo & Hno & _).
  rewrite (call_loaded _ _ _ _ _ _ _ _ _ _ _ _ _ _ _ _ P N HP HN) in H.
  destruct (aggregate _ _ _ P N) as [doc|e] eqn:Hrun; [|done].
  injection H as <-.
  assert (∀ path, path ≠ out_path symbol None →
          <[out_path symbol None := json_dump doc]> fs !! path = fs !! path)
    as Hother by (intros path Hne; by apply lookup_insert_ne).
  split_and!; [by apply Hother..|].
  rewrite (call_loaded _ _ _ _ _ _ _ _ _ _ _ _ _ _ _ _ P N).
  - rewrite <- (aggregate_ext _ _ _ _ _ _ P N Hymd Htz Hany), Hrun.
    by rewrite insert_insert_eq.
  - destruct HP as (c & pf & Hc & ?). exists c, pf. by rewrite Hother.
  - destruct HN as (c & nf & Hc & ?). exists c, nf. by rewrite Hother.
Qed.

End MoreFileFacts.

(** ** Rows the format reads, and the first day *)

Section MoreRecordFacts.

Variable to_datetime_ymd : string → option Z.
Variable to_datetime_tz : string → result (option Z).
Variable to_datetime_any : list string → result (list (option Z)).


(** X21: a high, low or close that is missing on the first day of the
    calendar is written as [nan]: there is no earlier value to take. *)
Theorem first_day_missing_price P N doc D1 c :
  aggregate to_datetime_ymd to_datetime_tz to_datetime_any P N = Ok doc →
  is_min D1 (valid_dates to_datetime_ymd P) →
  (Some D1, c) ∈ indexed to_datetime_ymd P →
  ∃ r, Doc.history doc !! 0%nat = Some r
    ∧ Doc.date r = Calendar.strftime_ymd D1
    ∧ (isna (high c) = true → isna (Doc.high (Doc.market_data r)) = true)
    ∧ (isna (low c) = true → isna (Doc.low (Doc.market_data r)) = true)
    ∧ (isna (close c) = true → isna (Doc.close (Doc.market_data r)) = true).
Proof.
  intros H Hmin Hin.
  destruct (aggregate_bounds _ _ _ _ _ _ H) as (D1' & Dn & Hmin' & Hmax).
  assert (D1' = D1) as -> by (by eapply is_min_unique). clear Hmin'.
  destruct (aggregate_parsed _ _ _ _ _ _ H) as [column Hcol].
  destruct (aggregate_Ok _ _ _ _ _ _ _ _ _ H Hcol Hmin Hmax) as [Hnd Hh].
  destruct (on_calendar_first _ P D1 Dn c Hmin Hmax Hnd Hin) as [rows Hrows].
  rewrite Hrows in Hh. simpl in Hh.
  apply bind_Ok in Hh as (r & Hr & Hh). apply bind_Ok in Hh as (rs & _ & Hh).
  injection Hh as Hh. exists r. rewrite <- Hh.
  apply day_record_Ok in Hr as (Hdate & _ & Hhigh & Hlow & Hclose & _).
  simpl in *.
  destruct (retype_prices (indexed to_datetime_ymd P) (seqZ D1 (Dn - D1 + 1)) c)
    as (Eh & El & Ec).
  rewrite Eh in Hhigh. rewrite El in Hlow. rewrite Ec in Hclose.
  unfold fill in *.
  split_and!; [done|done|..]; intros Hna.
  - by rewrite Hhigh, Hna.
  - by rewrite Hlow, Hna.
  - by rewrite Hclose, Hna.
Qed.

End MoreRecordFacts.

(** ** Examples for the further properties *)

(** A headline cell at a skipped hour ends the call, whatever the prices
    are. *)
Example skipped_hour_raises :
  Sample.aggregate Sample.prices_jan [Sample.row_est; Sample.row_skipped]
  = Raise NonExistentTimeError.
Proof. vm_compute. reflexivity. Qed.

(** X4 on the tables of January, with and without the headlines. *)
Lemma headlines_leave_prices_jan :
  Sample.aggregate Sample.prices_jan Sample.news_jan = Ok Sample.doc_jan
  ∧ parsed Sample.to_datetime_tz Sample.to_datetime_any (map Date []) = Ok []
  ∧ ∃ doc',
      Sample.aggregate Sample.prices_jan [] = Ok doc'
      ∧ Doc.date <$> Doc.history doc' = Doc.date <$> Doc.history Sample.doc_jan
      ∧ Doc.market_data <$> Doc.history doc'
        = Doc.market_data <$> Doc.history Sample.doc_jan.
Proof.
  assert (parsed Sample.to_datetime_tz Sample.to_datetime_any (map Date []) = Ok [])
    as Hcol by reflexivity.
  split_and!; [exact aggregate_jan|exact Hcol|].
  exact (headlines_leave_prices _ _ _ _ _ [] _ [] aggregate_jan Hcol).
Defined.

(** X5 on a headline table whose only row both parses refuse. *)
Lemma no_surviving_headline_sample :
  parsed Sample.to_datetime_tz Sample.to_datetime_any (map Date [Sample.row_lost])
  = Ok [None]
  ∧ dropna [Sample.row_lost] [None] = []
  ∧ Sample.aggregate Sample.prices_jan [Sample.row_lost] = Ok Sample.doc_jan_bare
  ∧ Forall (λ r, Doc.news_headlines r = []) (Doc.history Sample.doc_jan_bare).
Proof.
  assert (parsed Sample.to_datetime_tz Sample.to_datetime_any
            (map Date [Sample.row_lost]) = Ok [None]) as Hcol
    by (vm_compute; reflexivity).
  assert (dropna [Sample.row_lost] [None] = []) as Hkept by reflexivity.
  assert (Sample.aggregate Sample.prices_jan [Sample.row_lost]
          = Ok Sample.doc_jan_bare) as Hrun by (vm_compute; reflexivity).
  split_and!; [exact Hcol|exact Hkept|exact Hrun|].
  exact (no_surviving_headline _ _ _ _ _ _ _ Hcol Hkept Hrun).
Defined.


(** X7 on the price rows of January in both orders. *)
Lemma price_rows_in_any_order_jan :
  Sample.prices_jan ≡ₚ Sample.prices_jan_sorted
  ∧ Sample.aggregate Sample.prices_jan Sample.news_jan
    = Sample.aggregate Sample.prices_jan_sorted Sample.news_jan.
Proof.
  assert (Sample.prices_jan ≡ₚ Sample.prices_jan_sorted) as Hp by apply perm_swap.
  split; [exact Hp|].
  exact (price_rows_in_any_order _ _ _ _ _ Sample.news_jan Hp).
Defined.

(** X8 on a price table with no volume on 2023-01-01: [ValueError] with the
    headlines of January, the exception of the parse with a headline at a
    skipped hour. *)
Lemma first_day_without_volume_sample :
  is_min 19358 (valid_dates Calendar.strptime_ymd Sample.prices_no_volume)
  ∧ NoDup (indexed Calendar.strptime_ymd Sample.prices_no_volume).*1
  ∧ isna_volume (Float64 nan) = true
  ∧ Sample.aggregate Sample.prices_no_volume Sample.news_jan = Raise ValueError
  ∧ Sample.aggregate Sample.prices_no_volume [Sample.row_skipped]
    = Raise NonExistentTimeError.
Proof.
  assert (is_min 19358 (valid_dates Calendar.strptime_ymd Sample.prices_no_volume))
    as Hmin by (by apply is_min_check).
  assert (NoDup (indexed Calendar.strptime_ymd Sample.prices_no_volume).*1) as Hnd
    by compute_done.
  split_and!; [exact Hmin|exact Hnd|reflexivity|..].
  - etrans.
    + exact (first_day_without_volume _ Sample.to_datetime_tz Sample.to_datetime_any
               _ Sample.news_jan 19358
               {| high := 10; low := 9; close := 9.5; volume := Float64 nan |}
               Hmin Hnd (list_elem_of_here _ _) eq_refl).
    + vm_compute. reflexivity.
  - etrans.
    + exact (first_day_without_volume _ Sample.to_datetime_tz Sample.to_datetime_any
               _ [Sample.row_skipped] 19358
               {| high := 10; low := 9; close := 9.5; volume := Float64 nan |}
               Hmin Hnd (list_elem_of_here _ _) eq_refl).
    + vm_compute. reflexivity.
Defined.


(** X10 on two headline rows that the format reads, with a parse with no
    format that reads nothing in the place of the other. *)
Lemma fallback_not_consulted_sample :
  Forall (λ r, Sample.to_datetime_tz (Date r) ≠ Ok None)
    [Sample.row_est; Sample.row_feb]
  ∧ aggregate Calendar.strptime_ymd Sample.to_datetime_tz Sample.to_datetime_any
      Sample.prices_jan [Sample.row_est; Sample.row_feb]
    = aggregate Calendar.strptime_ymd Sample.to_datetime_tz (λ col, Ok [])
        Sample.prices_jan [Sample.row_est; Sample.row_feb].
Proof.
  assert (Forall (λ r, Sample.to_datetime_tz (Date r) ≠ Ok None)
            [Sample.row_est; Sample.row_feb]) as Hall
    by (repeat constructor; vm_compute; discriminate).
  split; [exact Hall|].
  exact (fallback_not_consulted _ _ _ _ _ _ Hall).
Defined.

(** X11 on a price file with no date that parses. *)
Lemma failed_call_keeps_files_sample :
  Sample.aggregate_for_symbol "AAPL" None None None (Sample.files Sample.prices_none)
  = (Raise ValueError, Sample.files Sample.prices_none)
  ∧ Sample.files Sample.prices_none = Sample.files Sample.prices_none.
Proof.
  assert (Sample.aggregate_for_symbol "AAPL" None None None
            (Sample.files Sample.prices_none)
          = (Raise ValueError, Sample.files Sample.prices_none)) as Hcall
    by (vm_compute; reflexivity).
  split; [exact Hcall|].
  exact (failed_call_keeps_files _ _ _ _ _ _ _ _ _ _ _ _ _ _ _ _ _ _ Hcall).
Defined.

(** X12 on the files of January. *)
Lemma call_writes_output_only_jan :
  let fs := Sample.files Sample.prices_jan in
  let fs1 := <["out/aapl.json" := Sample.JsonFile Sample.doc_jan]> fs in
  Sample.aggregate_for_symbol "AAPL" None None (Some "out/aapl.json"%string) fs
  = (Ok (), fs1)
  ∧ (∃ doc, fs1 !! out_path "AAPL" (Some "out/aapl.json"%string)
            = Some (Sample.JsonFile doc))
  ∧ ∀ path, path ≠ out_path "AAPL" (Some "out/aapl.json"%string) →
      fs1 !! path = fs !! path.
Proof.
  intros fs fs1.
  assert (Sample.aggregate_for_symbol "AAPL" None None (Some "out/aapl.json"%string) fs
          = (Ok (), fs1)) as Hcall by (vm_compute; reflexivity).
  split; [exact Hcall|].
  exact (call_writes_output_only _ _ _ _ _ _ _ _ _ _ _ _ _ _ _ _ _ Hcall).
Defined.

(** X14 on the files of January, with the three paths given. *)
Lemma explicit_paths_ignore_symbol_jan :
  Sample.aggregate_for_symbol "AAPL"
    (Some "stock_price_history/AAPL_price.csv"%string)
    (Some "news_headlines/AAPL_headlines.csv"%string)
    (Some "out.json"%string) (Sample.files Sample.prices_jan)
  = Sample.aggregate_for_symbol "MSFT"
      (Some "stock_price_history/AAPL_price.csv"%string)
      (Some "news_headlines/AAPL_headlines.csv"%string)
      (Some "out.json"%string) (Sample.files Sample.prices_jan).
Proof.
  assert ("stock_price_history/AAPL_price.csv"%string ≠ ""%string) as Hp by done.
  assert ("news_headlines/AAPL_headlines.csv"%string ≠ ""%string) as Hn by done.
  assert ("out.json"%string ≠ ""%string) as Ho by done.
  exact (explicit_paths_ignore_symbol _ _ _ _ _ _ _ _ _ _ _ "AAPL" "MSFT" _ _ _ _
           Hp Hn Ho).
Defined.

(** X15 with no file at all, and with the price file alone. *)
Lemma missing_input_file_sample :
  (∅ : gmap string Sample.File) !! price_path "AAPL" None = None
  ∧ Sample.aggregate_for_symbol "AAPL" None None None ∅
    = (Raise FileNotFoundError, ∅)
  ∧ Sample.price_file_only !! news_path "AAPL" None = None
  ∧ Sample.aggregate_for_symbol "AAPL" None None None Sample.price_file_only
    = (Raise FileNotFoundError, Sample.price_file_only).
Proof.
  assert ((∅ : gmap string Sample.File) !! price_path "AAPL" None = None) as Hp
    by reflexivity.
  assert (Sample.price_file_only !! news_path "AAPL" None = None) as Hn
    by (vm_compute; reflexivity).
  split_and!; [exact Hp| |exact Hn|].
  - exact (missing_input_file _ _ Sample.read_csv Sample.price_columns
             Sample.news_Date Sample.news_Article_title
             (λ _, Calendar.strptime_ymd) (λ _, Sample.to_datetime_tz)
             Sample.to_datetime_any_at Sample.JsonFile Sample.clock
             "AAPL" None None None ∅ (or_introl Hp)).
  - refine (missing_input_file _ _ Sample.read_csv Sample.price_columns
              Sample.news_Date Sample.news_Article_title
              (λ _, Calendar.strptime_ymd) (λ _, Sample.to_datetime_tz)
              Sample.to_datetime_any_at Sample.JsonFile Sample.clock
              "AAPL" None None None
              Sample.price_file_only (or_intror (conj _ Hn))).
    exists (Sample.PriceTable Sample.prices_jan),
      (Sample.CsvFile (Sample.PriceTable Sample.prices_jan)).
    split; [vm_compute; reflexivity|reflexivity].
Defined.

(** X16 with the headline table in the place of the price table. *)
Lemma missing_price_column_sample :
  Sample.price_columns (Sample.NewsTable Sample.news_jan) = None
  ∧ Sample.aggregate_for_symbol "AAPL" None None None Sample.tables_swapped
    = (Raise KeyError, Sample.tables_swapped).
Proof.
  split; [reflexivity|].
  refine (missing_price_column _ _ Sample.read_csv Sample.price_columns
            Sample.news_Date Sample.news_Article_title
            (λ _, Calendar.strptime_ymd) (λ _, Sample.to_datetime_tz)
            Sample.to_datetime_any_at Sample.JsonFile Sample.clock
            "AAPL" None None None
            Sample.tables_swapped (Sample.NewsTable Sample.news_jan)
            (Sample.PriceTable Sample.prices_jan) _ _ eq_refl).
  - exists (Sample.CsvFile (Sample.NewsTable Sample.news_jan)).
    split; [vm_compute; reflexivity|reflexivity].
  - exists (Sample.CsvFile (Sample.PriceTable Sample.prices_jan)).
    split; [vm_compute; reflexivity|reflexivity].
Defined.

(** X17: a headline file with no headline column at all gives [KeyError];
    one with its [Date] column alone gives [KeyError] when the dates are
    parsed, and the exception of the parse when a date is at a skipped
    hour. *)
Lemma headline_columns_after_prices_sample :
  Sample.aggregate_for_symbol "AAPL" None None None
    (Sample.headlines_without_columns Sample.prices_jan)
  = (Raise KeyError, Sample.headlines_without_columns Sample.prices_jan)
  ∧ Sample.aggregate_for_symbol "AAPL" None None None
      (Sample.headlines_without_titles Sample.prices_jan
         (map Date Sample.news_jan))
    = (Raise KeyError,
       Sample.headlines_without_titles Sample.prices_jan (map Date Sample.news_jan))
  ∧ Sample.aggregate_for_symbol "AAPL" None None None
      (Sample.headlines_without_titles Sample.prices_jan
         [Date Sample.row_skipped])
    = (Raise NonExistentTimeError,
       Sample.headlines_without_titles Sample.prices_jan [Date Sample.row_skipped]).
Proof.
  assert (∀ fs : gmap string Sample.File,
    fs !! price_path "AAPL" None
    = Some (Sample.CsvFile (Sample.PriceTable Sample.prices_jan)) →
    price_table_of Sample.read_csv Sample.price_columns fs
      (price_path "AAPL" None) Sample.prices_jan) as Htable
    by (intros fs H; by eexists _, _).
  assert (∀ (fs : gmap string Sample.File) t,
    fs !! news_path "AAPL" None = Some (Sample.CsvFile t) →
    ∃ c, fs !! news_path "AAPL" None = Some c ∧ Sample.read_csv c = Some t)
    as Hreads by (intros fs t H; by eexists).
  split_and!.
  - etrans.
    + refine (headline_columns_after_prices _ _ Sample.read_csv Sample.price_columns
                Sample.news_Date Sample.news_Article_title
                (λ _, Calendar.strptime_ymd) (λ _, Sample.to_datetime_tz)
                Sample.to_datetime_any_at Sample.JsonFile Sample.clock
                "AAPL" None None None
                (Sample.headlines_without_columns Sample.prices_jan)
                Sample.prices_jan (Sample.PriceTable Sample.prices_jan) _ _ (or_introl eq_refl)).
      * apply Htable. vm_compute. reflexivity.
      * apply Hreads. vm_compute. reflexivity.
    + vm_compute. reflexivity.
  - etrans.
    + refine (headline_columns_after_prices _ _ Sample.read_csv Sample.price_columns
                Sample.news_Date Sample.news_Article_title
                (λ _, Calendar.strptime_ymd) (λ _, Sample.to_datetime_tz)
                Sample.to_datetime_any_at Sample.JsonFile Sample.clock
                "AAPL" None None None
                (Sample.headlines_without_titles Sample.prices_jan (map Date Sample.news_jan))
                Sample.prices_jan (Sample.DateColumn (map Date Sample.news_jan)) _ _ (or_intror eq_refl)).
      * apply Htable. vm_compute. reflexivity.
      * apply Hreads. vm_compute. reflexivity.
    + vm_compute. reflexivity.
  - etrans.
    + refine (headline_columns_after_prices _ _ Sample.read_csv Sample.price_columns
                Sample.news_Date Sample.news_Article_title
                (λ _, Calendar.strptime_ymd) (λ _, Sample.to_datetime_tz)
                Sample.to_datetime_any_at Sample.JsonFile Sample.clock
                "AAPL" None None None
                (Sample.headlines_without_titles Sample.prices_jan [Date Sample.row_skipped])
                Sample.prices_jan (Sample.DateColumn [Date Sample.row_skipped]) _ _ (or_intror eq_refl)).
      * apply Htable. vm_compute. reflexivity.
      * apply Hreads. vm_compute. reflexivity.
    + vm_compute. reflexivity.
Defined.

(** X18 on a price file with no date that parses. *)
Lemma calendar_errors_are_ValueError_sample :
  valid_dates Calendar.strptime_ymd Sample.prices_none = []
  ∧ Sample.aggregate_for_symbol "AAPL" None None None
      (Sample.files Sample.prices_none)
    = (Raise ValueError, Sample.files Sample.prices_none).
Proof.
  split; [reflexivity|].
  refine (calendar_errors_are_ValueError _ _ Sample.read_csv Sample.price_columns
            Sample.news_Date Sample.news_Article_title
            (λ _, Calendar.strptime_ymd) (λ _, Sample.to_datetime_tz)
            Sample.to_datetime_any_at Sample.JsonFile Sample.clock
            "AAPL" None None None
            (Sample.files Sample.prices_none) Sample.prices_none
            (Sample.NewsTable Sample.news_jan) _ _ (or_introl eq_refl)).
  - exists (Sample.CsvFile (Sample.PriceTable Sample.prices_none)),
      (Sample.PriceTable Sample.prices_none).
    split_and!; [vm_compute; reflexivity|reflexivity..].
  - exists (Sample.CsvFile (Sample.NewsTable Sample.news_jan)).
    split; [vm_compute; reflexivity|reflexivity].
Defined.

(** X19 on the files of January, for the symbol [AAPL] and no path given,
    the second call a second after the first. *)
Lemma default_paths_rerun_jan :
  let fs := Sample.files Sample.prices_jan in
  let fs1 := <[out_path "AAPL" None := Sample.JsonFile Sample.doc_jan]> fs in
  let now := Sample.moment 19359 36000 in
  let now' := Sample.moment 19359 36001 in
  read_alike (λ _, Calendar.strptime_ymd) (λ _, Sample.to_datetime_tz)
    Sample.to_datetime_any_at now now' Sample.prices_jan Sample.news_jan
  ∧ Sample.aggregate_for_symbol_at now "AAPL" None None None fs = (Ok (), fs1)
  ∧ fs1 !! price_path "AAPL" None = fs !! price_path "AAPL" None
  ∧ fs1 !! news_path "AAPL" None = fs !! news_path "AAPL" None
  ∧ Sample.aggregate_for_symbol_at now' "AAPL" None None None fs1 = (Ok (), fs1).
Proof.
  intros fs fs1 now now'.
  assert (read_alike (λ _, Calendar.strptime_ymd) (λ _, Sample.to_datetime_tz)
            Sample.to_datetime_any_at now now' Sample.prices_jan Sample.news_jan)
    as Halike by (split_and!; [repeat constructor..|vm_compute; reflexivity]).
  assert (Sample.aggregate_for_symbol_at now "AAPL" None None None fs = (Ok (), fs1))
    as Hcall by (vm_compute; reflexivity).
  assert (price_table_of Sample.read_csv Sample.price_columns fs
            (price_path "AAPL" None) Sample.prices_jan) as HP
    by (apply price_table_jan; vm_compute; reflexivity).
  assert (news_table_of Sample.read_csv Sample.news_Date Sample.news_Article_title
            fs (news_path "AAPL" None) Sample.news_jan) as HN
    by (apply news_table_sample; vm_compute; reflexivity).
  split_and!; [exact Halike|exact Hcall|..];
    apply (default_paths_rerun _ _ _ _ _ _ _ _ _ _ now now' _ fs fs1
             Sample.prices_jan Sample.news_jan HP HN Halike Hcall).
Defined.


(** X21 on a price table whose first day has no high. *)
Lemma first_day_missing_price_sample :
  Sample.aggregate Sample.prices_no_high [] = Ok Sample.doc_no_high
  ∧ ∃ r, Doc.history Sample.doc_no_high !! 0%nat = Some r
      ∧ Doc.date r = Calendar.strftime_ymd 19358
      ∧ (isna nan = true → isna (Doc.high (Doc.market_data r)) = true)
      ∧ (isna 9 = true → isna (Doc.low (Doc.market_data r)) = true)
      ∧ (isna 9.5 = true → isna (Doc.close (Doc.market_data r)) = true).
Proof.
  assert (Sample.aggregate Sample.prices_no_high [] = Ok Sample.doc_no_high)
    as Hrun by (vm_compute; reflexivity).
  assert (is_min 19358 (valid_dates Calendar.strptime_ymd Sample.prices_no_high))
    as Hmin by (by apply is_min_check).
  split; [exact Hrun|].
  refine (first_day_missing_price _ _ _ _ _ _ 19358
            {| high := nan; low := 9; close := 9.5; volume := Int64 100 |}
            Hrun Hmin _).
  apply list_elem_of_here.
Defined.
